(** * scrum.py: the Jira scrum-master tool handlers

    A shallow embedding of [src/scrum.py].  The nine tool handlers registered by
    [JiraScrum._register_tools] are translated to functions in a small monad
    that threads the log of backend calls and carries Python exceptions; the
    Jira client ([self.jira]) is a record of response functions.

    Conventions of the embedding:
    - a Python value that ends up in a response or in a payload is a [Val];
      a [dict] is an association list in insertion order;
    - Python numbers that come from the story-point field are rationals
      ([VNum]); [/] and [*] on them are exact, so the rounding of Python's
      floats is not part of the model;
    - [str.lower] is the folding of the ASCII letters, written out here,
      followed by the folding of the other code points, whose tables are
      part of the Python runtime and not of the source: a parameter;
    - an attribute the source reads with [getattr(obj, name, default)] is an
      [option] field; an attribute read with a plain [obj.name] is a plain
      field, except [sprint.state], which the source reads both ways;
    - a backend call raises [Exception] instances (what [except Exception]
      catches), each identified with what [str(e)] gives; at start-up the
      other exceptions ([KeyboardInterrupt], [SystemExit]) are modelled
      too. *)

From Stdlib Require Import ZArith QArith Bool List String Ascii Lia DecimalString.
From Stdlib Require Import Permutation.
Import ListNotations.
Open Scope string_scope.
Open Scope list_scope.
Open Scope Z_scope.

(** ** Python values *)

#[local] Set Warnings "-register-all".

Inductive Val : Type :=
| VNone
| VBool (b : bool)
| VInt (z : Z)
| VNum (q : Q)
| VStr (s : string)
| VList (l : list Val)
| VDict (d : list (string * Val)).

Definition Dict := list (string * Val).

(** [bool(v)]: Python truthiness. *)
Definition truthy (v : Val) : bool :=
  match v with
  | VNone => false
  | VBool b => b
  | VInt z => negb (z =? 0)
  | VNum q => negb (Qeq_bool q 0)
  | VStr s => negb (s =? "")%string
  | VList l => match l with [] => false | _ => true end
  | VDict d => match d with [] => false | _ => true end
  end.

(** [a or b] *)
Definition py_or (a b : Val) : Val := if truthy a then a else b.

(** The numeric value of a Python number. *)
Definition num (v : Val) : Q :=
  match v with
  | VInt z => inject_Z z
  | VNum q => q
  | _ => 0%Q
  end.

(** [sum(...)] over numbers. *)
Definition py_sum (l : list Val) : Q :=
  fold_left (fun acc v => (acc + num v)%Q) l 0%Q.

(** [d.get(k)]: [None] stands for a missing key. *)
Fixpoint dict_get (k : string) (d : Dict) : option Val :=
  match d with
  | [] => None
  | (k', v) :: d' => if (k' =? k)%string then Some v else dict_get k d'
  end.

(** [d.get(k, default)] *)
Definition dict_get_default (k : string) (d : Dict) (default : Val) : Val :=
  match dict_get k d with Some v => v | None => default end.

(** [d[k] = v]: an existing key keeps its place, a new one goes last. *)
Fixpoint dict_set (k : string) (v : Val) (d : Dict) : Dict :=
  match d with
  | [] => [(k, v)]
  | (k', v') :: d' =>
      if (k' =? k)%string then (k', v) :: d' else (k', v') :: dict_set k v d'
  end.

Definition dict_keys (d : Dict) : list string := map fst d.

(** The fields of a [VDict]; anything else has none. *)
Definition as_dict (v : Val) : Dict :=
  match v with VDict d => d | _ => [] end.

(** [getattr(obj, name, default)] on an attribute that may be absent. *)
Definition getattr {A : Type} (attr : option A) (default : A) : A :=
  match attr with Some a => a | None => default end.

(** ** Strings *)

Definition lower_ascii (c : ascii) : ascii :=
  let n := nat_of_ascii c in
  if andb (Nat.leb 65 n) (Nat.leb n 90) then ascii_of_nat (n + 32) else c.

(** What [s.lower()] does to the ASCII letters of [s] (a string is the
    sequence of its UTF-8 bytes, so no other character is touched). *)
Fixpoint lower (s : string) : string :=
  match s with
  | EmptyString => EmptyString
  | String c s' => String (lower_ascii c) (lower s')
  end.

(** [str(n)] for an [int]. *)
Definition str_of_int (z : Z) : string := NilZero.string_of_int (Z.to_int z).

(** [sep.join(l)] *)
Definition join (sep : string) (l : list string) : string := String.concat sep l.

(** [x in l] for a list of strings. *)
Definition str_in (x : string) (l : list string) : bool :=
  existsb (fun y => (x =? y)%string) l.

(** The status names that count as finished work. *)
Definition completed_statuses : list string := ["Done"; "Closed"; "Completed"].

Definition is_completed (status : string) : bool := str_in status completed_statuses.

(** ** Backend records *)

Record User := { displayName : option string }.

Record Comment := {
  comment_author : string;       (* comment.author.displayName *)
  comment_body : string;
  comment_created : string
}.

Record ChangeItem := {
  item_field : string;
  item_fromString : option string;
  item_toString : option string
}.

Record ChangeHistory := {
  history_author : string;       (* history.author.displayName *)
  history_created : string;
  history_items : list ChangeItem
}.

Record Fields := {
  f_summary : string;
  f_description : option string;
  f_status : string;             (* fields.status.name *)
  f_assignee : option User;      (* None is Python's None *)
  f_reporter : string;           (* fields.reporter.displayName *)
  f_created : string;
  f_updated : string;
  f_priority : string;           (* fields.priority.name *)
  f_issuetype : string;          (* fields.issuetype.name *)
  customfield_10002 : option (option Q);  (* absent / None / number *)
  customfield_10001 : option Val;
  f_components : list string;    (* the names of fields.components *)
  f_labels : list string;
  f_comments : list Comment      (* fields.comment.comments *)
}.

Record Issue := {
  issue_key : string;
  issue_self : string;
  issue_fields : Fields;
  issue_changelog : list ChangeHistory   (* changelog.histories *)
}.

Record Sprint := {
  sprint_id : Z;
  sprint_name : string;
  sprint_state : option string;
  sprint_startDate : option string;
  sprint_endDate : option string;
  sprint_goal : option string
}.

Record Transition := {
  t_id : string;                 (* t['id'] *)
  t_name : string                (* t['name'] *)
}.

(** ** Exceptions, backend calls and the handler monad *)

Record Exn := { exn_str : string }.  (* str(e) *)

Inductive Result (A : Type) : Type :=
| Ok (a : A)
| Raise (e : Exn).
Arguments Ok {A} a.
Arguments Raise {A} e.

(** A call on [self.jira], with the arguments the handler passes. *)
Inductive Call : Type :=
| CSprints (board_id : Z) (state : string)
| CSearchIssues (jql : string) (maxResults : option Z)
| CIssue (key : string) (expand : option string)
| CCreateIssue (fields : Dict)
| CTransitions (key : string)
| CTransitionIssue (key : string) (transition : string)
| CAssignIssue (key : string) (assignee : string)
| CAddIssuesToSprint (sprint_id : Z) (keys : list string)
| CCreateSprint (name : string) (board_id : Z) (startDate endDate goal : string)
| CSprint (id : Z)
| CSprintReport (board_id sprint_id : Z).

Definition History := list Call.

(** The Jira client.  Each method answers from its arguments and from the
    calls made so far, so a backend whose state changes is covered.
    [missing_attribute] is the [AttributeError] the client library raises
    when a resource has no such attribute.  [lower_non_ascii] is what
    Python's [str.lower] does beyond the ASCII letters. *)
Record Jira := {
  jira_sprints : History -> Z -> string -> Result (list Sprint);
  jira_search_issues : History -> string -> option Z -> Result (list Issue);
  jira_issue : History -> string -> option string -> Result Issue;
  jira_create_issue : History -> Dict -> Result Issue;
  jira_transitions : History -> string -> Result (list Transition);
  jira_transition_issue : History -> string -> string -> Result unit;
  jira_assign_issue : History -> string -> string -> Result unit;
  jira_add_issues_to_sprint : History -> Z -> list string -> Result unit;
  jira_create_sprint :
    History -> string -> Z -> string -> string -> string -> Result Sprint;
  jira_sprint : History -> Z -> Result Sprint;
  jira_sprint_report : History -> Z -> Z -> Result Val;
  missing_attribute : string -> Exn;
  lower_non_ascii : string -> string
}.

(** [s.lower()] *)
Definition str_lower (j : Jira) (s : string) : string :=
  lower_non_ascii j (lower s).

Definition exn_of {A : Type} (r : Result A) : option Exn :=
  match r with Ok _ => None | Raise e => Some e end.

(** The exception, if any, with which the backend answers call [c] after
    the calls [h]. *)
Definition raised (j : Jira) (h : History) (c : Call) : option Exn :=
  match c with
  | CSprints b s => exn_of (jira_sprints j h b s)
  | CSearchIssues q m => exn_of (jira_search_issues j h q m)
  | CIssue k e => exn_of (jira_issue j h k e)
  | CCreateIssue f => exn_of (jira_create_issue j h f)
  | CTransitions k => exn_of (jira_transitions j h k)
  | CTransitionIssue k t => exn_of (jira_transition_issue j h k t)
  | CAssignIssue k a => exn_of (jira_assign_issue j h k a)
  | CAddIssuesToSprint s ks => exn_of (jira_add_issues_to_sprint j h s ks)
  | CCreateSprint n b s e g => exn_of (jira_create_sprint j h n b s e g)
  | CSprint i => exn_of (jira_sprint j h i)
  | CSprintReport b s => exn_of (jira_sprint_report j h b s)
  end.

(** A computation reads the client, extends the call log and either
    returns or raises. *)
Definition M (A : Type) : Type := Jira -> History -> Result A * History.

Definition ret {A : Type} (a : A) : M A := fun _ h => (Ok a, h).

Definition raise {A : Type} (e : Jira -> Exn) : M A := fun j h => (Raise (e j), h).

(** The client and runtime the handler runs with. *)
Definition ask : M Jira := fun j h => (Ok j, h).

Definition bind {A B : Type} (m : M A) (f : A -> M B) : M B :=
  fun j h =>
    match m j h with
    | (Ok a, h') => f a j h'
    | (Raise e, h') => (Raise e, h')
    end.

Notation "x <- m ;; k" := (bind m (fun x => k))
  (at level 61, m at next level, right associativity).
Notation "m ;;; k" := (bind m (fun _ => k))
  (at level 61, right associativity).

(** One backend call: logged, answered by the client. *)
Definition call {A : Type} (c : Call) (answer : Jira -> History -> Result A) : M A :=
  fun j h => (answer j h, h ++ [c]).

(** A [for] loop (or comprehension) that builds a list. *)
Fixpoint for_each {A B : Type} (f : A -> M B) (l : list A) : M (list B) :=
  match l with
  | [] => ret []
  | a :: l' => b <- f a ;; bs <- for_each f l' ;; ret (b :: bs)
  end.

(** [obj.name] on an attribute that may be absent. *)
Definition attr {A : Type} (name : string) (a : option A) : M A :=
  match a with
  | Some v => ret v
  | None => raise (fun j => missing_attribute j name)
  end.

Definition error_record (msg : string) : Val := VDict [("error", VStr msg)].

(** [try: body  except Exception as e: return {"error": str(e)}] *)
Definition try_except (body : M Val) : Jira -> History -> Val * History :=
  fun j h =>
    match body j h with
    | (Ok v, h') => (v, h')
    | (Raise e, h') => (error_record (exn_str e), h')
    end.

(** The methods of [self.jira] the handlers call. *)
Module jira.
Definition sprints (board_id : Z) (state : string) : M (list Sprint) :=
  call (CSprints board_id state) (fun j h => jira_sprints j h board_id state).
Definition search_issues (jql : string) (maxResults : option Z) : M (list Issue) :=
  call (CSearchIssues jql maxResults)
       (fun j h => jira_search_issues j h jql maxResults).
Definition issue (key : string) (expand : option string) : M Issue :=
  call (CIssue key expand) (fun j h => jira_issue j h key expand).
Definition create_issue (fields : Dict) : M Issue :=
  call (CCreateIssue fields) (fun j h => jira_create_issue j h fields).
Definition transitions (key : string) : M (list Transition) :=
  call (CTransitions key) (fun j h => jira_transitions j h key).
Definition transition_issue (key transition : string) : M unit :=
  call (CTransitionIssue key transition)
       (fun j h => jira_transition_issue j h key transition).
Definition assign_issue (key assignee : string) : M unit :=
  call (CAssignIssue key assignee) (fun j h => jira_assign_issue j h key assignee).
Definition add_issues_to_sprint (sprint_id : Z) (keys : list string) : M unit :=
  call (CAddIssuesToSprint sprint_id keys)
       (fun j h => jira_add_issues_to_sprint j h sprint_id keys).
Definition create_sprint (name : string) (board_id : Z)
    (startDate endDate goal : string) : M Sprint :=
  call (CCreateSprint name board_id startDate endDate goal)
       (fun j h => jira_create_sprint j h name board_id startDate endDate goal).
Definition sprint (id : Z) : M Sprint :=
  call (CSprint id) (fun j h => jira_sprint j h id).
Definition sprint_report (board_id sprint_id : Z) : M Val :=
  call (CSprintReport board_id sprint_id)
       (fun j h => jira_sprint_report j h board_id sprint_id).
End jira.

(** ** Shaping backend records *)

Definition opt_str (o : option string) : Val :=
  match o with Some s => VStr s | None => VNone end.

(** The [displayName] attribute of [issue.fields.assignee], absent when the
    assignee is [None] or has no such attribute. *)
Definition assignee_displayName (a : option User) : option string :=
  match a with Some u => displayName u | None => None end.

(** [getattr(issue.fields.assignee, "displayName", "Unassigned")] *)
Definition assignee_or_unassigned (f : Fields) : Val :=
  VStr (getattr (assignee_displayName (f_assignee f)) "Unassigned").

(** The value of the story-point attribute when it is present. *)
Definition story_val (p : option Q) : Val :=
  match p with Some q => VNum q | None => VNone end.

(** [getattr(issue.fields, "customfield_10002", default)] *)
Definition story_points_attr (f : Fields) (default : Val) : Val :=
  getattr (option_map story_val (customfield_10002 f)) default.

(** [d[k]] on a response record; the handlers only read keys they wrote. *)
Definition subscript (v : Val) (k : string) : Val :=
  dict_get_default k (as_dict v) VNone.

(** [v in l] for a list of strings. *)
Definition val_in (v : Val) (l : list string) : bool :=
  match v with VStr s => str_in s l | _ => false end.

(** [(completed / total * 100) if total > 0 else 0] *)
Definition percentage (completed total : Q) : Val :=
  if Qle_bool total 0 then VInt 0 else VNum (completed / total * 100)%Q.

(** ** get_sprint_details *)

(** The summary of one issue of a sprint. *)
Definition sprint_issue_summary (i : Issue) : Val :=
  let f := issue_fields i in
  VDict [("key", VStr (issue_key i));
         ("summary", VStr (f_summary f));
         ("status", VStr (f_status f));
         ("assignee", assignee_or_unassigned f);
         ("story_points", story_points_attr f (VInt 0))].

(** [issue.get("story_points", 0) or 0] *)
Definition points_or_0 (issue : Val) : Val :=
  py_or (dict_get_default "story_points" (as_dict issue) (VInt 0)) (VInt 0).

Definition summary_completed (issue : Val) : bool :=
  val_in (subscript issue "status") completed_statuses.

Definition total_story_points (issues : list Val) : Q :=
  py_sum (map points_or_0 issues).

Definition completed_points (issues : list Val) : Q :=
  py_sum (map points_or_0 (filter summary_completed issues)).

Definition sprint_metrics (issues : list Val) : Val :=
  VDict [("total_issues", VInt (Z.of_nat (List.length issues)));
         ("total_story_points", VNum (total_story_points issues));
         ("completed_story_points", VNum (completed_points issues));
         ("completion_percentage",
          percentage (completed_points issues) (total_story_points issues))].

(** The body of the loop over the sprints of the board. *)
Definition sprint_info_of (s : Sprint) : M Val :=
  state <- attr "state" (sprint_state s) ;;
  let sprint_info :=
    [("id", VInt (sprint_id s));
     ("name", VStr (sprint_name s));
     ("state", VStr state);
     ("start_date", getattr (option_map VStr (sprint_startDate s)) VNone);
     ("end_date", getattr (option_map VStr (sprint_endDate s)) VNone);
     ("goal", VStr (getattr (sprint_goal s) ""))] in
  let jql := ("sprint = " ++ str_of_int (sprint_id s) ++ " ORDER BY status")%string in
  issues <- jira.search_issues jql None ;;
  let sprint_info :=
    dict_set "issues" (VList (map sprint_issue_summary issues)) sprint_info in
  let sprint_info :=
    dict_set "metrics"
      (sprint_metrics (map sprint_issue_summary issues)) sprint_info in
  ret (VDict sprint_info).

Definition default_sprint_state : string := "active".

Definition get_sprint_details (board_id : Z) (sprint_state : string)
    : Jira -> History -> Val * History :=
  try_except (
    sprints <- jira.sprints board_id sprint_state ;;
    sprint_details <- for_each sprint_info_of sprints ;;
    ret (VDict [("sprints", VList sprint_details)])).

(** ** get_issue_details *)

Definition comment_record (c : Comment) : Val :=
  VDict [("author", VStr (comment_author c));
         ("body", VStr (comment_body c));
         ("created", VStr (comment_created c))].

Definition item_record (i : ChangeItem) : Val :=
  VDict [("field", VStr (item_field i));
         ("from_value", opt_str (item_fromString i));
         ("to_value", opt_str (item_toString i))].

Definition history_record (h : ChangeHistory) : Val :=
  VDict [("author", VStr (history_author h));
         ("created", VStr (history_created h));
         ("items", VList (map item_record (history_items h)))].

Definition issue_details (i : Issue) (changelog : list ChangeHistory) : Val :=
  let f := issue_fields i in
  VDict [("key", VStr (issue_key i));
         ("summary", VStr (f_summary f));
         ("description", opt_str (f_description f));
         ("status", VStr (f_status f));
         ("assignee", assignee_or_unassigned f);
         ("reporter", VStr (f_reporter f));
         ("created", VStr (f_created f));
         ("updated", VStr (f_updated f));
         ("priority", VStr (f_priority f));
         ("issue_type", VStr (f_issuetype f));
         ("story_points", story_points_attr f VNone);
         ("sprint", getattr (customfield_10001 f) VNone);
         ("components", VList (map VStr (f_components f)));
         ("labels", VList (map VStr (f_labels f)));
         ("comments", VList (map comment_record (f_comments f)));
         ("history", VList (map history_record changelog))].

Definition get_issue_details (issue_key : string)
    : Jira -> History -> Val * History :=
  try_except (
    i <- jira.issue issue_key None ;;
    expanded <- jira.issue issue_key (Some "changelog") ;;
    ret (issue_details i (issue_changelog expanded))).

(** ** create_issue *)

(** [if cond: d[k] = v] *)
Definition set_if (cond : Val) (k : string) (v : Val) (d : Dict) : Dict :=
  if truthy cond then dict_set k v d else d.

Definition opt_labels (o : option (list string)) : Val :=
  match o with Some l => VList (map VStr l) | None => VNone end.

(** The field map sent to the backend. *)
Definition issue_dict (project_key issue_type summary description : string)
    (assignee priority : option string) (labels : option (list string))
    (story_points : option Q) : Dict :=
  let d := [("project", VDict [("key", VStr project_key)]);
            ("issuetype", VDict [("name", VStr issue_type)]);
            ("summary", VStr summary);
            ("description", VStr description)] in
  let d := set_if (opt_str assignee) "assignee"
             (VDict [("name", opt_str assignee)]) d in
  let d := set_if (opt_str priority) "priority"
             (VDict [("name", opt_str priority)]) d in
  let d := set_if (opt_labels labels) "labels" (opt_labels labels) d in
  set_if (story_val story_points) "customfield_10002" (story_val story_points) d.

Definition create_issue (project_key issue_type summary description : string)
    (assignee priority : option string) (labels : option (list string))
    (story_points : option Q) : Jira -> History -> Val * History :=
  try_except (
    new_issue <- jira.create_issue
                   (issue_dict project_key issue_type summary description
                               assignee priority labels story_points) ;;
    ret (VDict [("key", VStr (issue_key new_issue));
                ("self", VStr (issue_self new_issue));
                ("summary", VStr summary);
                ("message",
                 VStr ("Successfully created issue " ++ issue_key new_issue)%string)])).

(** ** update_issue_status *)

(** The loop over the transitions: the id of the first one whose name is
    the target up to case, [None] when the loop ends without a match. *)
Fixpoint find_transition_id (lower : string -> string)
    (transitions : list Transition) (transition_to : string) : option string :=
  match transitions with
  | [] => None
  | t :: rest =>
      if (lower (t_name t) =? lower transition_to)%string then Some (t_id t)
      else find_transition_id lower rest transition_to
  end.

Definition cannot_transition (transition_to : string) (transitions : list Transition)
    : Val :=
  VDict [("success", VBool false);
         ("message",
          VStr ("Cannot transition to '" ++ transition_to
                ++ "'. Available transitions: "
                ++ join ", " (map t_name transitions))%string)].

Definition status_updated (issue_key transition_to : string) : Val :=
  VDict [("success", VBool true);
         ("key", VStr issue_key);
         ("new_status", VStr transition_to);
         ("message",
          VStr ("Successfully updated " ++ issue_key ++ " status to "
                ++ transition_to)%string)].

Definition update_issue_status (issue_key transition_to : string)
    : Jira -> History -> Val * History :=
  try_except (
    transitions <- jira.transitions issue_key ;;
    runtime <- ask ;;
    match find_transition_id (str_lower runtime) transitions transition_to with
    | Some transition_id =>
        (* [if not transition_id] *)
        if negb (truthy (VStr transition_id))
        then ret (cannot_transition transition_to transitions)
        else jira.transition_issue issue_key transition_id ;;;
             ret (status_updated issue_key transition_to)
    | None => ret (cannot_transition transition_to transitions)
    end).

(** ** assign_issue *)

Definition assign_issue (issue_key assignee : string)
    : Jira -> History -> Val * History :=
  try_except (
    jira.assign_issue issue_key assignee ;;;
    ret (VDict [("success", VBool true);
                ("key", VStr issue_key);
                ("assignee", VStr assignee);
                ("message",
                 VStr ("Successfully assigned " ++ issue_key ++ " to "
                       ++ assignee)%string)])).

(** ** add_issue_to_sprint *)

Definition add_issue_to_sprint (issue_key : string) (sprint_id : Z)
    : Jira -> History -> Val * History :=
  try_except (
    jira.add_issues_to_sprint sprint_id [issue_key] ;;;
    ret (VDict [("success", VBool true);
                ("key", VStr issue_key);
                ("sprint_id", VInt sprint_id);
                ("message",
                 VStr ("Successfully added " ++ issue_key ++ " to sprint "
                       ++ str_of_int sprint_id)%string)])).

(** ** get_project_backlog *)

Definition backlog_item (i : Issue) : Val :=
  let f := issue_fields i in
  VDict [("key", VStr (issue_key i));
         ("summary", VStr (f_summary f));
         ("issue_type", VStr (f_issuetype f));
         ("priority", VStr (f_priority f));
         ("status", VStr (f_status f));
         ("assignee", assignee_or_unassigned f);
         ("story_points", story_points_attr f (VInt 0))].

Definition backlog_jql (project_key : string) : string :=
  ("project = " ++ project_key ++ " AND sprint is EMPTY ORDER BY Rank ASC")%string.

Definition default_max_results : Z := 50.

Definition get_project_backlog (project_key : string) (max_results : Z)
    : Jira -> History -> Val * History :=
  try_except (
    backlog_issues <- jira.search_issues (backlog_jql project_key) (Some max_results) ;;
    let backlog_items := map backlog_item backlog_issues in
    ret (VDict [("project", VStr project_key);
                ("backlog_count", VInt (Z.of_nat (List.length backlog_items)));
                ("backlog_items", VList backlog_items)])).

(** ** create_sprint *)

Definition create_sprint (board_id : Z) (name start_date end_date goal : string)
    : Jira -> History -> Val * History :=
  try_except (
    new_sprint <- jira.create_sprint name board_id
                    (start_date ++ "T00:00:00.000Z")%string
                    (end_date ++ "T23:59:59.000Z")%string
                    goal ;;
    ret (VDict [("id", VInt (sprint_id new_sprint));
                ("name", VStr (sprint_name new_sprint));
                ("state", VStr (getattr (sprint_state new_sprint) "future"));
                ("start_date", VStr (getattr (sprint_startDate new_sprint) start_date));
                ("end_date", VStr (getattr (sprint_endDate new_sprint) end_date));
                ("goal", VStr (getattr (sprint_goal new_sprint) goal));
                ("message", VStr ("Successfully created sprint: " ++ name)%string)])).

(** ** generate_sprint_report *)

Definition issue_completed (i : Issue) : bool :=
  is_completed (f_status (issue_fields i)).

(** [getattr(issue.fields, "customfield_10002", 0) or 0] *)
Definition issue_points_or_0 (i : Issue) : Val :=
  py_or (story_points_attr (issue_fields i) (VInt 0)) (VInt 0).

Definition int_of (v : Val) : Z :=
  match v with VInt z => z | _ => 0 end.

(** [d[t][k] += 1] *)
Definition incr (t k : string) (d : Dict) : Dict :=
  let entry := as_dict (dict_get_default t d VNone) in
  dict_set t
    (VDict (dict_set k (VInt (int_of (dict_get_default k entry VNone) + 1)) entry)) d.

(** The body of the loop that groups by issue type. *)
Definition count_issue (issue_types : Dict) (i : Issue) : Dict :=
  let issue_type := f_issuetype (issue_fields i) in
  let issue_types :=
    match dict_get issue_type issue_types with
    | None =>
        dict_set issue_type (VDict [("total", VInt 0); ("completed", VInt 0)])
                 issue_types
    | Some _ => issue_types
    end in
  let issue_types := incr issue_type "total" issue_types in
  if issue_completed i then incr issue_type "completed" issue_types
  else issue_types.

Definition issue_types_of (sprint_issues : list Issue) : Dict :=
  fold_left count_issue sprint_issues [].

Definition total_issues (sprint_issues : list Issue) : Z :=
  Z.of_nat (List.length sprint_issues).

Definition completed_issues (sprint_issues : list Issue) : Z :=
  Z.of_nat (List.length (filter issue_completed sprint_issues)).

Definition report_total_story_points (sprint_issues : list Issue) : Q :=
  py_sum (map issue_points_or_0 sprint_issues).

Definition report_completed_points (sprint_issues : list Issue) : Q :=
  py_sum (map issue_points_or_0 (filter issue_completed sprint_issues)).

Definition report_metrics (sprint_issues : list Issue) : Val :=
  VDict [("total_issues", VInt (total_issues sprint_issues));
         ("completed_issues", VInt (completed_issues sprint_issues));
         ("completion_percentage",
          percentage (inject_Z (completed_issues sprint_issues))
                     (inject_Z (total_issues sprint_issues)));
         ("total_story_points", VNum (report_total_story_points sprint_issues));
         ("completed_story_points", VNum (report_completed_points sprint_issues));
         ("story_point_completion",
          percentage (report_completed_points sprint_issues)
                     (report_total_story_points sprint_issues));
         ("issue_types", VDict (issue_types_of sprint_issues))].

Definition report_record (s : Sprint) (sprint_issues : list Issue) : Val :=
  VDict [("sprint_name", VStr (sprint_name s));
         ("sprint_goal", VStr (getattr (sprint_goal s) ""));
         ("start_date", VStr (getattr (sprint_startDate s) ""));
         ("end_date", VStr (getattr (sprint_endDate s) ""));
         ("state", VStr (getattr (sprint_state s) ""));
         ("metrics", report_metrics sprint_issues)].

Definition generate_sprint_report (board_id sprint_id : Z)
    : Jira -> History -> Val * History :=
  try_except (
    s <- jira.sprint sprint_id ;;
    sprint_report <- jira.sprint_report board_id sprint_id ;;
    sprint_issues <- jira.search_issues
                       ("sprint = " ++ str_of_int sprint_id)%string (Some 200) ;;
    ret (report_record s sprint_issues)).

(** ** The tool surface *)

Inductive Tool : Type :=
| GetSprintDetails (board_id : Z) (sprint_state : string)
| GetIssueDetails (issue_key : string)
| CreateIssue (project_key issue_type summary description : string)
    (assignee priority : option string) (labels : option (list string))
    (story_points : option Q)
| UpdateIssueStatus (issue_key transition_to : string)
| AssignIssue (issue_key assignee : string)
| AddIssueToSprint (issue_key : string) (sprint_id : Z)
| GetProjectBacklog (project_key : string) (max_results : Z)
| CreateSprint (board_id : Z) (name start_date end_date goal : string)
| GenerateSprintReport (board_id sprint_id : Z).

(** A tool invocation dispatched to its handler. *)
Definition handle (t : Tool) : Jira -> History -> Val * History :=
  match t with
  | GetSprintDetails b s => get_sprint_details b s
  | GetIssueDetails k => get_issue_details k
  | CreateIssue p t s d a pr l sp => create_issue p t s d a pr l sp
  | UpdateIssueStatus k t => update_issue_status k t
  | AssignIssue k a => assign_issue k a
  | AddIssueToSprint k s => add_issue_to_sprint k s
  | GetProjectBacklog p m => get_project_backlog p m
  | CreateSprint b n s e g => create_sprint b n s e g
  | GenerateSprintReport b s => generate_sprint_report b s
  end.

(** ** Notions used to state the properties *)

(** A computation relays faults: it only extends the call log, and as soon
    as a backend call it makes is answered by an exception, that exception
    is its outcome. *)
Definition relays {A : Type} (m : M A) : Prop :=
  forall j h, exists cs,
    snd (m j h) = h ++ cs /\
    forall pre c post e,
      cs = pre ++ c :: post ->
      raised j (h ++ pre) c = Some e ->
      fst (m j h) = Raise e.

(** Story points of a backend issue, absent and [None] counting as 0. *)
Definition spec_points (i : Issue) : Q :=
  match customfield_10002 (issue_fields i) with
  | Some (Some q) => q
  | _ => 0%Q
  end.

(** Completed: the status name is one of the three names. *)
Definition spec_completed (i : Issue) : bool :=
  let s := f_status (issue_fields i) in
  ((s =? "Done") || (s =? "Closed") || (s =? "Completed"))%string.

Definition spec_sum (l : list Issue) : Q :=
  fold_right (fun i acc => (spec_points i + acc)%Q) 0%Q l.

(** What the metrics tie a percentage field to: the literal 0 when the
    denominator is not positive, the ratio times 100 otherwise. *)
Definition pct_of (pct : Val) (completed total : Q) : Prop :=
  match Qlt_le_dec 0 total with
  | left _ => (num pct == completed / total * 100)%Q
  | right _ => pct = VInt 0
  end.

(** The reading of the percentage fields with a guard on zero only. *)
Definition pct_zero_guarded (pct : Val) (completed total : Q) : Prop :=
  ((total == 0)%Q -> (num pct == 0)%Q) /\
  (~ (total == 0)%Q -> (num pct == completed / total * 100)%Q).



(** The counters of one issue type in the breakdown (0 for a type that is
    not there). *)
Definition entry_total (entry : Val) : Z :=
  int_of (dict_get_default "total" (as_dict entry) VNone).

Definition entry_completed (entry : Val) : Z :=
  int_of (dict_get_default "completed" (as_dict entry) VNone).

Definition type_total (issue_types : Dict) (t : string) : Z :=
  entry_total (dict_get_default t issue_types VNone).

Definition type_completed (issue_types : Dict) (t : string) : Z :=
  entry_completed (dict_get_default t issue_types VNone).

Definition sum_entries (f : Val -> Z) (d : Dict) : Z :=
  fold_right (fun kv acc => f (snd kv) + acc) 0 d.

(** What one issue adds to a counter. *)
Definition one_if (b : bool) : Z := if b then 1 else 0.

Definition has_type (t : string) (i : Issue) : bool :=
  (f_issuetype (issue_fields i) =? t)%string.

Definition count_where (p : Issue -> bool) (l : list Issue) : Z :=
  Z.of_nat (List.length (filter p l)).

(** The keys of a backlog item, in the order the handler writes them. *)
Definition backlog_item_keys : list string :=
  ["key"; "summary"; "issue_type"; "priority"; "status"; "assignee"; "story_points"].

(** An optional argument is in the field map exactly when it was given. *)
Definition sent_iff_provided {A : Type} (arg : option A) (k : string) (fields : Dict)
    : Prop :=
  arg <> None <-> dict_get k fields <> None.

(** ** Sample backends *)

Definition sample_fields (summary status issuetype : string)
    (assignee : option User) (points : option (option Q)) : Fields :=
  {| f_summary := summary; f_description := None; f_status := status;
     f_assignee := assignee; f_reporter := "Rey"; f_created := "2024-01-02";
     f_updated := "2024-01-03"; f_priority := "Medium"; f_issuetype := issuetype;
     customfield_10002 := points; customfield_10001 := None;
     f_components := []; f_labels := []; f_comments := [] |}.

Definition sample_issue (key summary status issuetype : string)
    (assignee : option User) (points : option (option Q)) : Issue :=
  {| issue_key := key; issue_self := ("https://jira.example/issue/" ++ key)%string;
     issue_fields := sample_fields summary status issuetype assignee points;
     issue_changelog := [] |}.

Definition proj_1 : Issue :=
  sample_issue "PROJ-1" "Login page" "Done" "Story"
    (Some {| displayName := Some "Ada" |}) (Some (Some 5%Q)).

Definition proj_2 : Issue :=
  sample_issue "PROJ-2" "Fix crash" "In Progress" "Bug" None (Some (Some 3%Q)).

Definition sprint_7 : Sprint :=
  {| sprint_id := 7; sprint_name := "Sprint 7"; sprint_state := Some "active";
     sprint_startDate := Some "2024-01-01T00:00:00.000Z";
     sprint_endDate := Some "2024-01-14T23:59:59.000Z"; sprint_goal := None |}.

Definition sample_transitions : list Transition :=
  [ {| t_id := "11"; t_name := "To Do" |};
    {| t_id := "21"; t_name := "In Progress" |};
    {| t_id := "31"; t_name := "Done" |} ].

(** A backend that answers every call, with the given issues, transitions
    and native sprint report. *)
Definition sample_jira (issues : list Issue) (ts : list Transition) (report : Val)
    : Jira :=
  {| jira_sprints := fun _ _ _ => Ok [sprint_7];
     jira_search_issues := fun _ _ _ => Ok issues;
     jira_issue := fun _ _ _ => Ok proj_1;
     jira_create_issue := fun _ _ => Ok proj_1;
     jira_transitions := fun _ _ => Ok ts;
     jira_transition_issue := fun _ _ _ => Ok tt;
     jira_assign_issue := fun _ _ _ => Ok tt;
     jira_add_issues_to_sprint := fun _ _ _ => Ok tt;
     jira_create_sprint := fun _ _ _ _ _ _ => Ok sprint_7;
     jira_sprint := fun _ _ => Ok sprint_7;
     jira_sprint_report := fun _ _ _ => Ok report;
     missing_attribute := fun name => {| exn_str := ("no attribute " ++ name)%string |};
     lower_non_ascii := fun s => s |}.

Definition demo_jira : Jira :=
  sample_jira [proj_1; proj_2] sample_transitions (VDict [("velocity", VInt 5)]).

(** A backend every call of which raises [e]. *)
Definition faulty_jira (e : Exn) : Jira :=
  {| jira_sprints := fun _ _ _ => Raise e;
     jira_search_issues := fun _ _ _ => Raise e;
     jira_issue := fun _ _ _ => Raise e;
     jira_create_issue := fun _ _ => Raise e;
     jira_transitions := fun _ _ => Raise e;
     jira_transition_issue := fun _ _ _ => Raise e;
     jira_assign_issue := fun _ _ _ => Raise e;
     jira_add_issues_to_sprint := fun _ _ _ => Raise e;
     jira_create_sprint := fun _ _ _ _ _ _ => Raise e;
     jira_sprint := fun _ _ => Raise e;
     jira_sprint_report := fun _ _ _ => Raise e;
     missing_attribute := fun _ => e;
     lower_non_ascii := fun s => s |}.

(** An issue marked done whose story-point field holds -2. *)
Definition refund_issue : Issue :=
  sample_issue "PROJ-3" "Descoped work" "Done" "Task" None (Some (Some (-2 # 1)%Q)).

(** ** Process start-up: [__init__], [_init_jira], [run] *)

(** What the process writes to [stderr]: a printed line, or the traceback
    of an exception ([traceback.print_exc]). *)
Inductive Line : Type :=
| Printed (s : string)
| Traceback (e : Exn).

(** What a call into a library does at start-up: it returns, it raises an
    [Exception], or it raises something that [except Exception] does not
    catch ([KeyboardInterrupt], [SystemExit]), named by [b]. *)
Inductive Outcome (A : Type) : Type :=
| Returns (a : A)
| Raises (e : Exn)
| Escapes (b : string).
Arguments Returns {A} a.
Arguments Raises {A} e.
Arguments Escapes {A} b.

(** How the process ends: the script runs to its end, it calls
    [sys.exit(status)], or an exception it does not catch ends it. *)
Inductive Ending : Type :=
| Ended
| Exit (status : Z)
| Uncaught (b : string).

(** [_init_jira].  [getenv] is [os.getenv] once [load_dotenv()] has run;
    [JIRA] is the constructor of the client, called with the server and the
    [basic_auth] pair.  The result is the client, or the way the process
    ends, with the lines the script has written to [stderr]. *)
Definition init_jira (getenv : string -> option string)
    (JIRA : string -> string * string -> Outcome Jira)
    : (Jira + Ending) * list Line :=
  let jira_url := getenv "JIRA_URL" in
  let jira_username := getenv "JIRA_USERNAME" in
  let jira_api_token := getenv "JIRA_API_TOKEN" in
  let attempt : Outcome Jira :=
    if negb (truthy (opt_str jira_url))
       || negb (truthy (opt_str jira_username))
       || negb (truthy (opt_str jira_api_token))
    then Raises {| exn_str := "Missing Jira credentials in environment variables" |}
    else JIRA (getattr jira_url "")
              (getattr jira_username "", getattr jira_api_token "") in
  match attempt with
  | Returns client =>
      (inl client,
       [Printed "Jira client initialized successfully";
        Printed ("Connected to Jira instance: " ++ getattr jira_url "")%string])
  | Raises e =>
      (inr (Exit 1),
       [Printed ("Error initializing Jira client: " ++ exn_str e)%string;
        Traceback e])
  | Escapes b => (inr (Uncaught b), [])
  end.



(** A credential that is set and not empty. *)
Definition credential (getenv : string -> option string) (name : string) : bool :=
  match getenv name with
  | Some s => negb (s =? "")%string
  | None => false
  end.

Definition sample_env (name : string) : option string :=
  if (name =? "JIRA_URL")%string then Some "https://jira.example"
  else if (name =? "JIRA_USERNAME")%string then Some "ada"
  else if (name =? "JIRA_API_TOKEN")%string then Some "s3cret"
  else None.

(** ** More notions used to state the properties *)

(** The calls that change the backend. *)
Definition mutating (c : Call) : bool :=
  match c with
  | CCreateIssue _ | CTransitionIssue _ _ | CAssignIssue _ _
  | CAddIssuesToSprint _ _ | CCreateSprint _ _ _ _ _ => true
  | CSprints _ _ | CSearchIssues _ _ | CIssue _ _ | CTransitions _
  | CSprint _ | CSprintReport _ _ => false
  end.

Definition writes (cs : list Call) : nat := List.length (filter mutating cs).

(** The tools that only look things up. *)
Definition read_only_tool (t : Tool) : bool :=
  match t with
  | GetSprintDetails _ _ | GetIssueDetails _ | GetProjectBacklog _ _
  | GenerateSprintReport _ _ => true
  | _ => false
  end.

(** A computation extends the log with at most [n] mutating calls. *)
Definition writes_at_most {A : Type} (n : nat) (m : M A) : Prop :=
  forall j h, exists cs, snd (m j h) = h ++ cs /\ (writes cs <= n)%nat.

(** The search [get_sprint_details] makes for a sprint. *)
Definition sprint_search (s : Sprint) : Call :=
  CSearchIssues ("sprint = " ++ str_of_int (sprint_id s) ++ " ORDER BY status")%string
                None.

(** The entry of an issue type with the given counters. *)
Definition type_entry (total completed : Z) : Val :=
  VDict [("total", VInt total); ("completed", VInt completed)].

(** Every entry of the breakdown has the two counters, and nothing else. *)
Definition entries_shaped (d : Dict) : Prop :=
  forall t e, dict_get t d = Some e -> exists n m, e = type_entry n m.

Definition sprint_without_state : Sprint :=
  {| sprint_id := 8; sprint_name := "Sprint 8"; sprint_state := None;
     sprint_startDate := None; sprint_endDate := None; sprint_goal := None |}.

Definition null_points_issue : Issue :=
  sample_issue "PROJ-4" "Unestimated" "Done" "Story" None (Some None).

(** [demo_jira] with a native sprint report that cannot be fetched. *)
Definition report_down_jira : Jira :=
  {| jira_sprints := jira_sprints demo_jira;
     jira_search_issues := jira_search_issues demo_jira;
     jira_issue := jira_issue demo_jira;
     jira_create_issue := jira_create_issue demo_jira;
     jira_transitions := jira_transitions demo_jira;
     jira_transition_issue := jira_transition_issue demo_jira;
     jira_assign_issue := jira_assign_issue demo_jira;
     jira_add_issues_to_sprint := jira_add_issues_to_sprint demo_jira;
     jira_create_sprint := jira_create_sprint demo_jira;
     jira_sprint := jira_sprint demo_jira;
     jira_sprint_report := fun _ _ _ => Raise {| exn_str := "404 Not Found" |};
     missing_attribute := missing_attribute demo_jira;
     lower_non_ascii := lower_non_ascii demo_jira |}.

(** [demo_jira] answering [create_sprint] with a sprint that echoes
    nothing but its id and name. *)
Definition terse_jira : Jira :=
  {| jira_sprints := jira_sprints demo_jira;
     jira_search_issues := jira_search_issues demo_jira;
     jira_issue := jira_issue demo_jira;
     jira_create_issue := jira_create_issue demo_jira;
     jira_transitions := jira_transitions demo_jira;
     jira_transition_issue := jira_transition_issue demo_jira;
     jira_assign_issue := jira_assign_issue demo_jira;
     jira_add_issues_to_sprint := jira_add_issues_to_sprint demo_jira;
     jira_create_sprint := fun _ _ _ _ _ _ => Ok sprint_without_state;
     jira_sprint := jira_sprint demo_jira;
     jira_sprint_report := jira_sprint_report demo_jira;
     missing_attribute := missing_attribute demo_jira;
     lower_non_ascii := lower_non_ascii demo_jira |}.

Definition env_without_token (name : string) : option string :=
  if (name =? "JIRA_API_TOKEN")%string then Some "" else sample_env name.

(** * Properties *)

(** ** Faults are relayed by every computation the handlers are built from *)

Section Relay.

Context {A B : Type}.

Lemma relays_ret (a : A) : relays (ret a).
Proof.
  intros j h. exists []. split.
  - simpl. now rewrite app_nil_r.
  - intros pre c post e Hsplit. destruct pre; discriminate.
Qed.

Lemma relays_raise (e : Jira -> Exn) : relays (@raise A e).
Proof.
  intros j h. exists []. split.
  - simpl. now rewrite app_nil_r.
  - intros pre c post e' Hsplit. destruct pre; discriminate.
Qed.

Lemma relays_call (c : Call) (answer : Jira -> History -> Result A) :
  (forall j h, raised j h c = exn_of (answer j h)) ->
  relays (call c answer).
Proof.
  intros Hc j h. exists [c]. split; [reflexivity|].
  intros pre c' post e Hsplit Hraised.
  destruct pre as [|x pre].
  - injection Hsplit as <- _. rewrite app_nil_r, Hc in Hraised.
    unfold call; simpl. destruct (answer j h); simpl in Hraised; congruence.
  - injection Hsplit as _ Hrest. destruct pre; discriminate.
Qed.

Lemma relays_bind (m : M A) (f : A -> M B) :
  relays m -> (forall a, relays (f a)) -> relays (bind m f).
Proof.
  intros Hm Hf j h. unfold bind.
  destruct (Hm j h) as (cs1 & Hlog1 & Hfault1).
  destruct (m j h) as [[a|e1] h1] eqn:Em; simpl in Hlog1, Hfault1; subst h1.
  - destruct (Hf a j (h ++ cs1)) as (cs2 & Hlog2 & Hfault2).
    exists (cs1 ++ cs2). split.
    + now rewrite Hlog2, app_assoc.
    + intros pre c post e Hsplit Hraised.
      symmetry in Hsplit. apply app_eq_app in Hsplit.
      destruct Hsplit as (l & [[Hpre Hcs2] | [Hcs1 Hpost]]).
      * subst pre. apply (Hfault2 l c post e Hcs2).
        now rewrite <- app_assoc.
      * destruct l as [|x l].
        -- simpl in Hpost. rewrite app_nil_r in Hcs1. subst cs1.
           apply (Hfault2 [] c post e); [now symmetry|].
           now rewrite app_nil_r.
        -- simpl in Hpost. injection Hpost as <- Hpost.
           specialize (Hfault1 pre c l e Hcs1 Hraised). discriminate.
  - exists cs1. split; [reflexivity|].
    intros pre c post e Hsplit Hraised.
    simpl. specialize (Hfault1 pre c post e Hsplit Hraised). congruence.
Qed.

End Relay.

Lemma relays_for_each {A B : Type} (f : A -> M B) (l : list A) :
  (forall a, relays (f a)) -> relays (for_each f l).
Proof.
  intros Hf. induction l as [|a l IH]; simpl.
  - apply relays_ret.
  - apply relays_bind; [apply Hf|]. intros b.
    apply relays_bind; [exact IH|]. intros bs. apply relays_ret.
Qed.

Lemma relays_ask : relays ask.
Proof.
  intros j h. exists []. split.
  - simpl. now rewrite app_nil_r.
  - intros pre c post e Hsplit. destruct pre; discriminate.
Qed.

Lemma relays_attr {A : Type} (name : string) (a : option A) : relays (attr name a).
Proof. destruct a; [apply relays_ret | apply relays_raise]. Qed.

Ltac relay_step :=
  first [ apply relays_ret
        | apply relays_attr
        | apply relays_call; intros; reflexivity
        | apply relays_for_each; intros
        | apply relays_bind; [|intros] ].

Ltac relay := repeat relay_step.

Lemma relays_sprint_info_of (s : Sprint) : relays (sprint_info_of s).
Proof. unfold sprint_info_of, jira.search_issues. relay. Qed.

(** [try/except] turns a relayed fault into the error record. *)
Lemma try_except_fault (body : M Val) j h pre c post e :
  relays body ->
  snd (try_except body j h) = h ++ pre ++ c :: post ->
  raised j (h ++ pre) c = Some e ->
  fst (try_except body j h) = error_record (exn_str e).
Proof.
  intros Hbody Hlog Hraised. unfold try_except in *.
  destruct (Hbody j h) as (cs & Hcs & Hfault).
  destruct (body j h) as [[v|e'] h'] eqn:Eb; simpl in *; rewrite Hcs in Hlog;
    apply app_inv_head in Hlog;
    specialize (Hfault pre c post e Hlog Hraised); congruence.
Qed.

(** ** C1: faults of the backend surface as error records *)

(** C1 (as amended).  For every tool and every input: when a backend call
    made by the handler is answered by an exception [e], the handler
    returns the record [{"error": str(e)}].  The handler itself is a total
    function to a response value, so nothing is propagated.  The message is
    whatever [str(e)] is. *)
Theorem handler_fault_gives_error_record (t : Tool) (j : Jira) (h : History)
    (pre : list Call) (c : Call) (post : list Call) (e : Exn) :
  snd (handle t j h) = h ++ pre ++ c :: post ->
  raised j (h ++ pre) c = Some e ->
  fst (handle t j h) = error_record (exn_str e).
Proof.
  destruct t; simpl; intros Hlog Hraised;
    eapply try_except_fault; try exact Hlog; try exact Hraised.
  - unfold jira.sprints.
    apply relays_bind; [relay|]. intros sprints.
    apply relays_bind; [|intros; relay].
    apply relays_for_each, relays_sprint_info_of.
  - unfold jira.issue. relay.
  - unfold jira.create_issue. relay.
  - unfold jira.transitions, jira.transition_issue.
    apply relays_bind; [relay|]. intros ts.
    apply relays_bind; [apply relays_ask|]. intros runtime.
    destruct (find_transition_id (str_lower runtime) ts transition_to) as [tid|];
      [|relay].
    destruct (negb (truthy (VStr tid))); relay.
  - unfold jira.assign_issue. relay.
  - unfold jira.add_issues_to_sprint. relay.
  - unfold jira.search_issues. relay.
  - unfold jira.create_sprint. relay.
  - unfold jira.sprint, jira.sprint_report, jira.search_issues. relay.
Qed.

Lemma handler_fault_gives_error_record_witness :
  fst (handle (AssignIssue "PROJ-1" "alice")
              (faulty_jira {| exn_str := "Connection refused" |}) [])
  = error_record "Connection refused".
Proof.
  apply (handler_fault_gives_error_record
           (AssignIssue "PROJ-1" "alice")
           (faulty_jira {| exn_str := "Connection refused" |})
           [] [] (CAssignIssue "PROJ-1" "alice") []
           {| exn_str := "Connection refused" |}); reflexivity.
Defined.

(** C1 as stated fails on the message: an exception raised without a
    message, as [TimeoutError()] is, has [str(e) == ""], and that empty
    string is what [assign_issue] returns under ["error"]. *)
Lemma blank_exception_gives_blank_message :
  raised (faulty_jira {| exn_str := "" |}) [] (CAssignIssue "PROJ-1" "alice")
    = Some {| exn_str := "" |} /\
  handle (AssignIssue "PROJ-1" "alice") (faulty_jira {| exn_str := "" |}) []
    = (VDict [("error", VStr "")], [CAssignIssue "PROJ-1" "alice"]) /\
  ~ (exists msg : string,
        fst (handle (AssignIssue "PROJ-1" "alice")
                    (faulty_jira {| exn_str := "" |}) [])
          = error_record msg /\ msg <> "").
Proof.
  split; [reflexivity|]. split; [reflexivity|].
  intros (msg & Hrec & Hne). apply Hne.
  cbv in Hrec. now injection Hrec as <-.
Qed.

(** ** C5: the dates sent by create_sprint *)

(** C5.  Whatever the arguments and the backend, [create_sprint] makes one
    backend call, and it carries the start date followed by
    [T00:00:00.000Z] and the end date followed by [T23:59:59.000Z]. *)
Theorem create_sprint_payload_dates (board_id : Z)
    (name start_date end_date goal : string) (j : Jira) (h : History) :
  snd (create_sprint board_id name start_date end_date goal j h)
  = h ++ [CCreateSprint name board_id
            (start_date ++ "T00:00:00.000Z")%string
            (end_date ++ "T23:59:59.000Z")%string goal].
Proof.
  unfold create_sprint, try_except, bind, jira.create_sprint, call.
  destruct (jira_create_sprint j h name board_id _ _ goal); reflexivity.
Qed.

Example create_sprint_january :
  snd (create_sprint 42 "Sprint 8" "2024-01-01" "2024-01-14" "" demo_jira [])
  = [CCreateSprint "Sprint 8" 42 "2024-01-01T00:00:00.000Z"
                   "2024-01-14T23:59:59.000Z" ""].
Proof. reflexivity. Qed.

(** ** C6: a missing assignee reads "Unassigned" *)

(** C6.  For an issue whose backend record has no assignee, the record
    built by each of [get_sprint_details], [get_project_backlog] and
    [get_issue_details] has the key ["assignee"], with the string
    ["Unassigned"] as its value. *)
Theorem missing_assignee_is_unassigned (i : Issue) (changelog : list ChangeHistory) :
  f_assignee (issue_fields i) = None ->
  dict_get "assignee" (as_dict (sprint_issue_summary i)) = Some (VStr "Unassigned") /\
  dict_get "assignee" (as_dict (backlog_item i)) = Some (VStr "Unassigned") /\
  dict_get "assignee" (as_dict (issue_details i changelog)) = Some (VStr "Unassigned").
Proof.
  intros Hnone.
  unfold sprint_issue_summary, backlog_item, issue_details, assignee_or_unassigned.
  rewrite Hnone. repeat split; reflexivity.
Qed.

Lemma missing_assignee_is_unassigned_witness :
  f_assignee (issue_fields proj_2) = None /\
  dict_get "assignee" (as_dict (sprint_issue_summary proj_2)) = Some (VStr "Unassigned") /\
  dict_get "assignee" (as_dict (backlog_item proj_2)) = Some (VStr "Unassigned") /\
  dict_get "assignee" (as_dict (issue_details proj_2 [])) = Some (VStr "Unassigned").
Proof.
  split; [reflexivity|].
  apply (missing_assignee_is_unassigned proj_2 []). reflexivity.
Defined.

(** ** C7: the backlog query and the shape of its answer *)

(** C7.  [get_project_backlog P N] asks the backend for the issues of
    project [P] that are in no sprint, by ascending rank, with [N] as the
    cap; when the backend answers with a list of issues the handler returns
    [{project, backlog_count, backlog_items}], one item per issue in the
    same order, [backlog_count] being the number of items and every item
    having the seven keys.  The default cap is 50. *)
Theorem backlog_query_and_shape (P : string) (N : Z) (j : Jira) (h : History)
    (issues : list Issue) :
  jira_search_issues j h
    ("project = " ++ P ++ " AND sprint is EMPTY ORDER BY Rank ASC")%string (Some N)
    = Ok issues ->
  exists items : list Val,
    get_project_backlog P N j h
    = (VDict [("project", VStr P);
              ("backlog_count", VInt (Z.of_nat (List.length items)));
              ("backlog_items", VList items)],
       h ++ [CSearchIssues
               ("project = " ++ P ++ " AND sprint is EMPTY ORDER BY Rank ASC")%string
               (Some N)]) /\
    items = map backlog_item issues /\
    Forall (fun item => dict_keys (as_dict item) = backlog_item_keys) items /\
    default_max_results = 50.
Proof.
  intros Hsearch. exists (map backlog_item issues).
  split; [|split; [reflexivity|split; [|reflexivity]]].
  - unfold get_project_backlog, try_except, bind, jira.search_issues, call, backlog_jql.
    rewrite Hsearch. reflexivity.
  - apply Forall_forall. intros item Hin.
    apply in_map_iff in Hin. destruct Hin as (i & <- & _). reflexivity.
Qed.

Lemma backlog_query_and_shape_witness :
  exists items : list Val,
    get_project_backlog "PROJ" 50 demo_jira []
    = (VDict [("project", VStr "PROJ");
              ("backlog_count", VInt (Z.of_nat (List.length items)));
              ("backlog_items", VList items)],
       [] ++ [CSearchIssues
               ("project = " ++ "PROJ" ++ " AND sprint is EMPTY ORDER BY Rank ASC")%string
               (Some 50)]) /\
    items = map backlog_item [proj_1; proj_2] /\
    Forall (fun item => dict_keys (as_dict item) = backlog_item_keys) items /\
    default_max_results = 50.
Proof.
  apply (backlog_query_and_shape "PROJ" 50 demo_jira [] [proj_1; proj_2]).
  reflexivity.
Defined.

(** ** C4: the field map of create_issue *)

(** C4 (as amended).  The field map [create_issue] sends always has the
    four required fields.  An optional argument is in it exactly when it
    was given and is not empty: a non-empty assignee, a non-empty priority,
    a non-empty list of labels, story points other than 0.  An argument
    that was not given leaves no key behind. *)
Theorem create_issue_payload (project_key issue_type summary description : string)
    (assignee priority : option string) (labels : option (list string))
    (story_points : option Q) (j : Jira) (h : History) :
  snd (create_issue project_key issue_type summary description
                    assignee priority labels story_points j h)
  = h ++ [CCreateIssue (issue_dict project_key issue_type summary description
                                   assignee priority labels story_points)] /\
  dict_get "project"
    (issue_dict project_key issue_type summary description
                assignee priority labels story_points)
  = Some (VDict [("key", VStr project_key)]) /\
  dict_get "issuetype"
    (issue_dict project_key issue_type summary description
                assignee priority labels story_points)
  = Some (VDict [("name", VStr issue_type)]) /\
  dict_get "summary"
    (issue_dict project_key issue_type summary description
                assignee priority labels story_points)
  = Some (VStr summary) /\
  dict_get "description"
    (issue_dict project_key issue_type summary description
                assignee priority labels story_points)
  = Some (VStr description) /\
  dict_get "assignee"
    (issue_dict project_key issue_type summary description
                assignee priority labels story_points)
  = match assignee with
    | Some a => if (a =? "")%string then None else Some (VDict [("name", VStr a)])
    | None => None
    end /\
  dict_get "priority"
    (issue_dict project_key issue_type summary description
                assignee priority labels story_points)
  = match priority with
    | Some p => if (p =? "")%string then None else Some (VDict [("name", VStr p)])
    | None => None
    end /\
  dict_get "labels"
    (issue_dict project_key issue_type summary description
                assignee priority labels story_points)
  = match labels with
    | Some (l :: ls) => Some (VList (map VStr (l :: ls)))
    | _ => None
    end /\
  dict_get "customfield_10002"
    (issue_dict project_key issue_type summary description
                assignee priority labels story_points)
  = match story_points with
    | Some q => if Qeq_bool q 0 then None else Some (VNum q)
    | None => None
    end.
Proof.
  split.
  - unfold create_issue, try_except, bind, jira.create_issue, call.
    destruct (jira_create_issue j h _); reflexivity.
  - unfold issue_dict, set_if.
    destruct assignee as [a|]; [simpl (truthy _); destruct (a =? "")%string|];
    (destruct priority as [p|]; [simpl (truthy _); destruct (p =? "")%string|]);
    (destruct labels as [[|l ls]|]);
    (destruct story_points as [q|]; [simpl (truthy _); destruct (Qeq_bool q 0)|]);
    simpl; repeat split; reflexivity.
Qed.

(** C4 as stated fails when an optional argument is given but empty:
    with [story_points=0] the key ["customfield_10002"] is not sent, and
    the payload holds the four required fields only. *)
Lemma zero_story_points_not_sent :
  snd (create_issue "PROJ" "Story" "Spike" "Timeboxed" None None None (Some 0%Q)
                    demo_jira [])
    = [CCreateIssue [("project", VDict [("key", VStr "PROJ")]);
                     ("issuetype", VDict [("name", VStr "Story")]);
                     ("summary", VStr "Spike");
                     ("description", VStr "Timeboxed")]] /\
  ~ sent_iff_provided (Some 0%Q) "customfield_10002"
      (issue_dict "PROJ" "Story" "Spike" "Timeboxed" None None None (Some 0%Q)).
Proof.
  split; [reflexivity|].
  intros [Hsent _]. apply Hsent; [discriminate | reflexivity].
Qed.

(** ** C3: update_issue_status *)





Example update_issue_status_done :
  update_issue_status "PROJ-1" "done" demo_jira []
  = (VDict [("success", VBool true);
            ("key", VStr "PROJ-1");
            ("new_status", VStr "done");
            ("message", VStr "Successfully updated PROJ-1 status to done")],
     [CTransitions "PROJ-1"; CTransitionIssue "PROJ-1" "31"]).
Proof. reflexivity. Qed.

(** ** C9: the native sprint report is not read *)

(** C9.  Two runs of [generate_sprint_report] in which the backend gives
    the same sprint and the same issues, and some native sprint report
    each, return the same record and make the same calls; the record is
    built from the sprint and the issues alone. *)
Theorem sprint_report_contents_unused (board_id sprint_id : Z) (j1 j2 : Jira)
    (h : History) (s : Sprint) (r1 r2 : Val) (issues : list Issue) :
  jira_sprint j1 h sprint_id = Ok s ->
  jira_sprint j2 h sprint_id = Ok s ->
  jira_sprint_report j1 (h ++ [CSprint sprint_id]) board_id sprint_id = Ok r1 ->
  jira_sprint_report j2 (h ++ [CSprint sprint_id]) board_id sprint_id = Ok r2 ->
  jira_search_issues j1
    ((h ++ [CSprint sprint_id]) ++ [CSprintReport board_id sprint_id])
    ("sprint = " ++ str_of_int sprint_id)%string (Some 200) = Ok issues ->
  jira_search_issues j2
    ((h ++ [CSprint sprint_id]) ++ [CSprintReport board_id sprint_id])
    ("sprint = " ++ str_of_int sprint_id)%string (Some 200) = Ok issues ->
  generate_sprint_report board_id sprint_id j1 h
    = generate_sprint_report board_id sprint_id j2 h /\
  fst (generate_sprint_report board_id sprint_id j1 h) = report_record s issues.
Proof.
  intros Hs1 Hs2 Hr1 Hr2 Hi1 Hi2.
  unfold generate_sprint_report, try_except, bind, jira.sprint, jira.sprint_report,
    jira.search_issues, call, ret.
  rewrite Hs1, Hs2, Hr1, Hr2, Hi1, Hi2. split; reflexivity.
Qed.

Lemma sprint_report_contents_unused_witness :
  generate_sprint_report 42 7 demo_jira []
    = generate_sprint_report 42 7
        (sample_jira [proj_1; proj_2] sample_transitions (VStr "burndown")) [] /\
  fst (generate_sprint_report 42 7 demo_jira [])
    = report_record sprint_7 [proj_1; proj_2].
Proof.
  apply (sprint_report_contents_unused 42 7 demo_jira
           (sample_jira [proj_1; proj_2] sample_transitions (VStr "burndown"))
           [] sprint_7 (VDict [("velocity", VInt 5)]) (VStr "burndown")
           [proj_1; proj_2]); reflexivity.
Defined.

(** ** C2: completion percentages *)

Lemma fold_sum_acc (l : list Val) (a : Q) :
  (fold_left (fun acc v => acc + num v) l a == a + py_sum l)%Q.
Proof.
  unfold py_sum. revert a. induction l as [|v l IH]; intros a; simpl.
  - ring.
  - rewrite (IH (a + num v)%Q), (IH (0 + num v)%Q). ring.
Qed.

Lemma py_sum_cons (v : Val) (l : list Val) :
  (py_sum (v :: l) == num v + py_sum l)%Q.
Proof.
  unfold py_sum at 1. simpl. rewrite fold_sum_acc. ring.
Qed.

Lemma num_or_0 (p : option (option Q)) :
  (num (py_or (getattr (option_map story_val p) (VInt 0)) (VInt 0))
   == match p with Some (Some q) => q | _ => 0 end)%Q.
Proof.
  destruct p as [[q|]|]; unfold py_or; simpl; try reflexivity.
  destruct (Qeq_bool q 0) eqn:Eq; simpl; [|reflexivity].
  apply Qeq_bool_eq in Eq. now rewrite Eq.
Qed.

Lemma points_or_0_summary (i : Issue) :
  (num (points_or_0 (sprint_issue_summary i)) == spec_points i)%Q.
Proof. exact (num_or_0 (customfield_10002 (issue_fields i))). Qed.

Lemma issue_points_or_0_spec (i : Issue) :
  (num (issue_points_or_0 i) == spec_points i)%Q.
Proof. exact (num_or_0 (customfield_10002 (issue_fields i))). Qed.

Lemma is_completed_spec (i : Issue) : issue_completed i = spec_completed i.
Proof.
  unfold issue_completed, spec_completed, is_completed, str_in, completed_statuses.
  simpl. now rewrite orb_false_r, orb_assoc.
Qed.

Lemma summary_completed_spec (i : Issue) :
  summary_completed (sprint_issue_summary i) = spec_completed i.
Proof. exact (is_completed_spec i). Qed.

Lemma filter_summaries (l : list Issue) :
  filter summary_completed (map sprint_issue_summary l)
  = map sprint_issue_summary (filter spec_completed l).
Proof.
  induction l as [|i l IH]; [reflexivity|].
  cbn [map filter]. rewrite summary_completed_spec, IH.
  now destruct (spec_completed i).
Qed.

Lemma filter_issue_completed (l : list Issue) :
  filter issue_completed l = filter spec_completed l.
Proof. apply filter_ext, is_completed_spec. Qed.

Lemma sum_summaries (l : list Issue) :
  (py_sum (map points_or_0 (map sprint_issue_summary l)) == spec_sum l)%Q.
Proof.
  induction l as [|i l IH]; [reflexivity|].
  cbn [map spec_sum fold_right]. rewrite py_sum_cons, points_or_0_summary.
  fold (spec_sum l). now rewrite IH.
Qed.

Lemma sum_issues (l : list Issue) :
  (py_sum (map issue_points_or_0 l) == spec_sum l)%Q.
Proof.
  induction l as [|i l IH]; [reflexivity|].
  cbn [map spec_sum fold_right]. rewrite py_sum_cons, issue_points_or_0_spec.
  fold (spec_sum l). now rewrite IH.
Qed.

Lemma percentage_pct_of (c t c' t' : Q) :
  (c == c')%Q -> (t == t')%Q -> pct_of (percentage c t) c' t'.
Proof.
  intros Hc Ht. unfold pct_of, percentage.
  destruct (Qlt_le_dec 0 t') as [Hpos|Hle].
  - destruct (Qle_bool t 0) eqn:E.
    + apply Qle_bool_iff in E. rewrite Ht in E.
      exfalso. exact (Qlt_not_le _ _ Hpos E).
    + simpl. now rewrite Hc, Ht.
  - destruct (Qle_bool t 0) eqn:E; [reflexivity|].
    rewrite <- Ht in Hle. apply Qle_bool_iff in Hle. congruence.
Qed.

(** C2 (as amended).  For every list of issues, with "completed" meaning
    that the status name is "Done", "Closed" or "Completed": the story-point
    totals of [get_sprint_details] are the sums over all issues and over
    the completed ones, and each percentage field of [get_sprint_details]
    and [generate_sprint_report] is 0 when its denominator is not positive
    and completed / total * 100 when it is positive. *)
Theorem completion_percentages (issues : list Issue) :
  (num (subscript (sprint_metrics (map sprint_issue_summary issues))
                  "total_story_points")
   == spec_sum issues)%Q /\
  (num (subscript (sprint_metrics (map sprint_issue_summary issues))
                  "completed_story_points")
   == spec_sum (filter spec_completed issues))%Q /\
  pct_of (subscript (sprint_metrics (map sprint_issue_summary issues))
                    "completion_percentage")
         (spec_sum (filter spec_completed issues)) (spec_sum issues) /\
  pct_of (subscript (report_metrics issues) "story_point_completion")
         (spec_sum (filter spec_completed issues)) (spec_sum issues) /\
  pct_of (subscript (report_metrics issues) "completion_percentage")
         (inject_Z (count_where spec_completed issues))
         (inject_Z (Z.of_nat (List.length issues))).
Proof.
  assert (Htotal : (total_story_points (map sprint_issue_summary issues)
                    == spec_sum issues)%Q) by apply sum_summaries.
  assert (Hdone : (completed_points (map sprint_issue_summary issues)
                   == spec_sum (filter spec_completed issues))%Q).
  { unfold completed_points. rewrite filter_summaries. apply sum_summaries. }
  assert (Hrtotal : (report_total_story_points issues == spec_sum issues)%Q)
    by apply sum_issues.
  assert (Hrdone : (report_completed_points issues
                    == spec_sum (filter spec_completed issues))%Q).
  { unfold report_completed_points. rewrite filter_issue_completed. apply sum_issues. }
  repeat split.
  - exact Htotal.
  - exact Hdone.
  - exact (percentage_pct_of _ _ _ _ Hdone Htotal).
  - exact (percentage_pct_of _ _ _ _ Hrdone Hrtotal).
  - apply percentage_pct_of; [|reflexivity].
    unfold completed_issues, count_where. now rewrite filter_issue_completed.
Qed.

(** The scenario of the specification: 5 points done out of 8. *)
Example sprint_7_metrics :
  fst (get_sprint_details 42 default_sprint_state demo_jira [])
  = VDict [("sprints",
      VList [VDict [("id", VInt 7); ("name", VStr "Sprint 7");
                    ("state", VStr "active");
                    ("start_date", VStr "2024-01-01T00:00:00.000Z");
                    ("end_date", VStr "2024-01-14T23:59:59.000Z");
                    ("goal", VStr "");
                    ("issues", VList [sprint_issue_summary proj_1;
                                      sprint_issue_summary proj_2]);
                    ("metrics",
                     sprint_metrics [sprint_issue_summary proj_1;
                                     sprint_issue_summary proj_2])]])] /\
  (num (subscript (sprint_metrics [sprint_issue_summary proj_1;
                                   sprint_issue_summary proj_2])
                  "completion_percentage") == 125 # 2)%Q.
Proof. split; reflexivity. Qed.

(** C2 as stated fails when the total is negative: one finished issue whose
    story-point field holds -2 gives a total and a completed sum of -2, so
    completed / total * 100 is 100, and the handlers report 0. *)
Lemma negative_total_reports_zero :
  sprint_metrics (map sprint_issue_summary [refund_issue])
    = VDict [("total_issues", VInt 1);
             ("total_story_points", VNum (-2 # 1));
             ("completed_story_points", VNum (-2 # 1));
             ("completion_percentage", VInt 0)] /\
  subscript (report_metrics [refund_issue]) "story_point_completion" = VInt 0 /\
  ~ pct_zero_guarded
      (subscript (sprint_metrics (map sprint_issue_summary [refund_issue]))
                 "completion_percentage")
      (spec_sum (filter spec_completed [refund_issue])) (spec_sum [refund_issue]).
Proof.
  split; [reflexivity|]. split; [reflexivity|].
  intros [_ Hratio].
  assert (Hnz : ~ (spec_sum [refund_issue] == 0)%Q) by (vm_compute; discriminate).
  specialize (Hratio Hnz). vm_compute in Hratio. discriminate.
Qed.

(** ** Dictionaries *)

Section DictFacts.

Variables (k : string) (v : Val).

Lemma dict_get_set_same (d : Dict) : dict_get k (dict_set k v d) = Some v.
Proof.
  induction d as [|[k0 v0] d IH]; simpl.
  - now rewrite String.eqb_refl.
  - destruct (k0 =? k)%string eqn:E; simpl; rewrite E; [reflexivity | exact IH].
Qed.

Lemma dict_get_set_other (k' : string) (d : Dict) :
  k' <> k -> dict_get k' (dict_set k v d) = dict_get k' d.
Proof.
  intros Hne. induction d as [|[k0 v0] d IH]; simpl.
  - destruct (String.eqb_spec k k'); congruence.
  - destruct (String.eqb_spec k0 k) as [->|Hk0]; simpl.
    + destruct (String.eqb_spec k k'); congruence.
    + destruct (k0 =? k')%string; [reflexivity | exact IH].
Qed.

Lemma default_set_same (d : Dict) : dict_get_default k (dict_set k v d) VNone = v.
Proof. unfold dict_get_default. now rewrite dict_get_set_same. Qed.

Lemma default_set_other (k' : string) (d : Dict) :
  k' <> k ->
  dict_get_default k' (dict_set k v d) VNone = dict_get_default k' d VNone.
Proof. intros Hne. unfold dict_get_default. now rewrite dict_get_set_other. Qed.

Lemma get_none_set (k' : string) (d : Dict) :
  dict_get k' (dict_set k v d) = None <-> k' <> k /\ dict_get k' d = None.
Proof.
  split.
  - intros Hnone. destruct (string_dec k' k) as [->|Hne].
    + rewrite dict_get_set_same in Hnone. discriminate.
    + rewrite dict_get_set_other in Hnone by exact Hne. now split.
  - intros [Hne Hnone]. now rewrite dict_get_set_other.
Qed.

Lemma in_keys_set (x : string) (d : Dict) :
  In x (dict_keys (dict_set k v d)) -> x = k \/ In x (dict_keys d).
Proof.
  induction d as [|[k0 v0] d IH]; simpl.
  - intros [<-|[]]. now left.
  - destruct (k0 =? k)%string; simpl; intros [Hx|Hx]; auto.
    destruct (IH Hx); auto.
Qed.

Lemma nodup_keys_set (d : Dict) :
  NoDup (dict_keys d) -> NoDup (dict_keys (dict_set k v d)).
Proof.
  induction d as [|[k0 v0] d IH]; simpl; intros Hnd.
  - constructor; [intros [] | constructor].
  - inversion Hnd as [|? ? Hnotin Hnd']; subst.
    destruct (String.eqb_spec k0 k) as [->|Hk0]; simpl.
    + now constructor.
    + constructor; [|now apply IH].
      intros Hin. apply in_keys_set in Hin. destruct Hin; congruence.
Qed.

Lemma sum_entries_set (f : Val -> Z) (d : Dict) :
  f VNone = 0 ->
  sum_entries f (dict_set k v d)
  = sum_entries f d - f (dict_get_default k d VNone) + f v.
Proof.
  intros Hf. unfold dict_get_default.
  induction d as [|[k0 v0] d IH]; simpl.
  - lia.
  - destruct (k0 =? k)%string; simpl; lia.
Qed.

End DictFacts.

(** ** The counters of one issue type *)

Lemma entry_total_after_total (x : Val) :
  entry_total
    (VDict (dict_set "total"
              (VInt (int_of (dict_get_default "total" (as_dict x) VNone) + 1))
              (as_dict x)))
  = entry_total x + 1.
Proof. unfold entry_total. simpl as_dict. now rewrite default_set_same. Qed.

Lemma entry_completed_after_total (x u : Val) :
  entry_completed (VDict (dict_set "total" u (as_dict x))) = entry_completed x.
Proof.
  unfold entry_completed. simpl as_dict.
  now rewrite default_set_other by discriminate.
Qed.

Lemma entry_completed_after_completed (x : Val) :
  entry_completed
    (VDict (dict_set "completed"
              (VInt (int_of (dict_get_default "completed" (as_dict x) VNone) + 1))
              (as_dict x)))
  = entry_completed x + 1.
Proof. unfold entry_completed. simpl as_dict. now rewrite default_set_same. Qed.

Lemma entry_total_after_completed (x u : Val) :
  entry_total (VDict (dict_set "completed" u (as_dict x))) = entry_total x.
Proof.
  unfold entry_total. simpl as_dict.
  now rewrite default_set_other by discriminate.
Qed.

Lemma type_total_incr_total (t t' : string) (d : Dict) :
  type_total (incr t "total" d) t' = type_total d t' + one_if (t =? t')%string.
Proof.
  unfold type_total, incr. destruct (String.eqb_spec t t') as [<-|Hne]; simpl one_if.
  - now rewrite default_set_same, entry_total_after_total.
  - rewrite default_set_other by congruence. lia.
Qed.

Lemma type_total_incr_completed (t t' : string) (d : Dict) :
  type_total (incr t "completed" d) t' = type_total d t'.
Proof.
  unfold type_total, incr. destruct (String.eqb_spec t t') as [<-|Hne].
  - now rewrite default_set_same, entry_total_after_completed.
  - now rewrite default_set_other by congruence.
Qed.

Lemma type_completed_incr_completed (t t' : string) (d : Dict) :
  type_completed (incr t "completed" d) t'
  = type_completed d t' + one_if (t =? t')%string.
Proof.
  unfold type_completed, incr. destruct (String.eqb_spec t t') as [<-|Hne]; simpl one_if.
  - now rewrite default_set_same, entry_completed_after_completed.
  - rewrite default_set_other by congruence. lia.
Qed.

Lemma type_completed_incr_total (t t' : string) (d : Dict) :
  type_completed (incr t "total" d) t' = type_completed d t'.
Proof.
  unfold type_completed, incr. destruct (String.eqb_spec t t') as [<-|Hne].
  - now rewrite default_set_same, entry_completed_after_total.
  - now rewrite default_set_other by congruence.
Qed.

(** Opening an entry with both counters at 0 changes no counter. *)
Lemma default_fresh_entry (t t' : string) (d : Dict) :
  dict_get t d = None ->
  entry_total (dict_get_default t'
     (dict_set t (VDict [("total", VInt 0); ("completed", VInt 0)]) d) VNone)
    = entry_total (dict_get_default t' d VNone) /\
  entry_completed (dict_get_default t'
     (dict_set t (VDict [("total", VInt 0); ("completed", VInt 0)]) d) VNone)
    = entry_completed (dict_get_default t' d VNone).
Proof.
  intros Hnone. destruct (string_dec t' t) as [->|Hne].
  - rewrite default_set_same. unfold dict_get_default. rewrite Hnone.
    split; reflexivity.
  - rewrite default_set_other by exact Hne. split; reflexivity.
Qed.

Section CountIssue.

Variables (d : Dict) (i : Issue).

Lemma type_total_open (ty t : string) :
  type_total
    match dict_get ty d with
    | None => dict_set ty (VDict [("total", VInt 0); ("completed", VInt 0)]) d
    | Some _ => d
    end t
  = type_total d t.
Proof.
  destruct (dict_get ty d) eqn:E; [reflexivity|].
  unfold type_total. now apply default_fresh_entry.
Qed.

Lemma type_completed_open (ty t : string) :
  type_completed
    match dict_get ty d with
    | None => dict_set ty (VDict [("total", VInt 0); ("completed", VInt 0)]) d
    | Some _ => d
    end t
  = type_completed d t.
Proof.
  destruct (dict_get ty d) eqn:E; [reflexivity|].
  unfold type_completed. now apply default_fresh_entry.
Qed.

Lemma count_issue_total (t : string) :
  type_total (count_issue d i) t = type_total d t + one_if (has_type t i).
Proof.
  unfold count_issue, has_type. cbv zeta.
  destruct (issue_completed i);
    rewrite ?type_total_incr_completed, type_total_incr_total, type_total_open;
    reflexivity.
Qed.

Lemma count_issue_completed (t : string) :
  type_completed (count_issue d i) t
  = type_completed d t + one_if (has_type t i && spec_completed i).
Proof.
  unfold count_issue, has_type. cbv zeta. rewrite <- is_completed_spec.
  destruct (issue_completed i);
    rewrite ?type_completed_incr_completed, type_completed_incr_total,
      type_completed_open;
    rewrite ?andb_true_r, ?andb_false_r; simpl one_if; lia.
Qed.

Lemma count_issue_absent (t : string) :
  dict_get t (count_issue d i) = None
  <-> has_type t i = false /\ dict_get t d = None.
Proof.
  unfold count_issue, incr, has_type. rewrite String.eqb_neq.
  destruct (issue_completed i); rewrite ?get_none_set;
    destruct (dict_get (f_issuetype (issue_fields i)) d) eqn:E;
    rewrite ?get_none_set; intuition congruence.
Qed.

Lemma count_issue_nodup :
  NoDup (dict_keys d) -> NoDup (dict_keys (count_issue d i)).
Proof.
  intros Hnd. unfold count_issue, incr.
  destruct (issue_completed i); repeat apply nodup_keys_set;
    destruct (dict_get (f_issuetype (issue_fields i)) d);
    try apply nodup_keys_set; exact Hnd.
Qed.

Lemma count_issue_sum_total :
  sum_entries entry_total (count_issue d i) = sum_entries entry_total d + 1.
Proof.
  unfold count_issue, incr.
  destruct (issue_completed i);
    rewrite !sum_entries_set by reflexivity;
    rewrite ?default_set_same, ?entry_total_after_completed,
      ?entry_total_after_total;
    destruct (dict_get (f_issuetype (issue_fields i)) d) eqn:E;
    rewrite ?sum_entries_set by reflexivity;
    rewrite ?default_set_same; unfold dict_get_default; rewrite ?E;
    (change (entry_total VNone) with 0);
    (change (entry_total (VDict [("total", VInt 0); ("completed", VInt 0)]))
       with 0);
    lia.
Qed.

Lemma count_issue_sum_completed :
  sum_entries entry_completed (count_issue d i)
  = sum_entries entry_completed d + one_if (spec_completed i).
Proof.
  unfold count_issue, incr. rewrite <- is_completed_spec.
  destruct (issue_completed i); simpl one_if;
    rewrite !sum_entries_set by reflexivity;
    rewrite ?default_set_same, ?entry_completed_after_completed,
      ?entry_completed_after_total;
    destruct (dict_get (f_issuetype (issue_fields i)) d) eqn:E;
    rewrite ?sum_entries_set by reflexivity;
    rewrite ?default_set_same; unfold dict_get_default; rewrite ?E;
    (change (entry_completed VNone) with 0);
    (change (entry_completed (VDict [("total", VInt 0); ("completed", VInt 0)]))
       with 0);
    lia.
Qed.

End CountIssue.

(** ** The scan over the issues *)

Lemma count_where_cons (p : Issue -> bool) (i : Issue) (l : list Issue) :
  count_where p (i :: l) = one_if (p i) + count_where p l.
Proof.
  unfold count_where. simpl. destruct (p i); simpl one_if; [|lia].
  simpl List.length. lia.
Qed.

Lemma count_where_app (p : Issue -> bool) (l : list Issue) (i : Issue) :
  count_where p (l ++ [i]) = count_where p l + one_if (p i).
Proof.
  induction l as [|x l IH]; simpl app.
  - rewrite count_where_cons. unfold count_where. simpl. lia.
  - rewrite !count_where_cons, IH. lia.
Qed.

Lemma count_where_nonneg (p : Issue -> bool) (l : list Issue) : 0 <= count_where p l.
Proof. unfold count_where. lia. Qed.

Lemma count_where_length (p : Issue -> bool) (l : list Issue) :
  count_where p l <= Z.of_nat (List.length l).
Proof.
  induction l as [|x l IH]; [unfold count_where; simpl; lia|].
  rewrite count_where_cons. simpl List.length. destruct (p x); simpl one_if; lia.
Qed.

Lemma count_where_and (p q : Issue -> bool) (l : list Issue) :
  count_where (fun x => p x && q x) l <= count_where p l.
Proof.
  induction l as [|x l IH]; [unfold count_where; simpl; lia|].
  rewrite !count_where_cons. destruct (p x), (q x); simpl one_if; lia.
Qed.

Lemma issue_types_of_snoc (l : list Issue) (i : Issue) :
  issue_types_of (l ++ [i]) = count_issue (issue_types_of l) i.
Proof. unfold issue_types_of. now rewrite fold_left_app. Qed.

Lemma scan_total (t : string) (l : list Issue) :
  type_total (issue_types_of l) t = count_where (has_type t) l.
Proof.
  induction l as [|i l IH] using rev_ind; [reflexivity|].
  rewrite issue_types_of_snoc, count_issue_total, count_where_app, IH. reflexivity.
Qed.

Lemma scan_completed (t : string) (l : list Issue) :
  type_completed (issue_types_of l) t
  = count_where (fun x => has_type t x && spec_completed x) l.
Proof.
  induction l as [|i l IH] using rev_ind; [reflexivity|].
  rewrite issue_types_of_snoc, count_issue_completed, count_where_app, IH.
  reflexivity.
Qed.

Lemma scan_absent (t : string) (l : list Issue) :
  dict_get t (issue_types_of l) = None <-> count_where (has_type t) l = 0.
Proof.
  induction l as [|i l IH] using rev_ind; [split; reflexivity|].
  rewrite issue_types_of_snoc, count_issue_absent, count_where_app, IH.
  pose proof (count_where_nonneg (has_type t) l).
  destruct (has_type t i); simpl one_if; split.
  - intros [? _]. discriminate.
  - lia.
  - intros [_ ?]. lia.
  - intros ?. split; [reflexivity | lia].
Qed.

Lemma scan_nodup (l : list Issue) : NoDup (dict_keys (issue_types_of l)).
Proof.
  induction l as [|i l IH] using rev_ind; [constructor|].
  rewrite issue_types_of_snoc. now apply count_issue_nodup.
Qed.

Lemma scan_sum_total (l : list Issue) :
  sum_entries entry_total (issue_types_of l) = Z.of_nat (List.length l).
Proof.
  induction l as [|i l IH] using rev_ind; [reflexivity|].
  rewrite issue_types_of_snoc, count_issue_sum_total, IH, length_app. simpl. lia.
Qed.

Lemma scan_sum_completed (l : list Issue) :
  sum_entries entry_completed (issue_types_of l) = count_where spec_completed l.
Proof.
  induction l as [|i l IH] using rev_ind; [reflexivity|].
  now rewrite issue_types_of_snoc, count_issue_sum_completed, count_where_app, IH.
Qed.

(** ** C8: the breakdown by issue type *)

(** C8.  The breakdown of [generate_sprint_report] is one scan of the
    issues in arrival order, from the empty dictionary: the issue that
    arrives after [issues] adds 1 to the total of its own type, adds 1 to
    the completed count of its own type exactly when its status is "Done",
    "Closed" or "Completed", and changes no other counter.  So the counters
    of a type [t] are the number of issues of type [t] and the number of
    completed ones among them, and [t] is a key exactly when some issue has
    it. *)
Theorem issue_type_breakdown (issues : list Issue) (i : Issue) (t : string) :
  issue_types_of [] = [] /\
  issue_types_of (issues ++ [i]) = count_issue (issue_types_of issues) i /\
  type_total (issue_types_of (issues ++ [i])) t
    = type_total (issue_types_of issues) t + one_if (has_type t i) /\
  type_completed (issue_types_of (issues ++ [i])) t
    = type_completed (issue_types_of issues) t
      + one_if (has_type t i && spec_completed i) /\
  type_total (issue_types_of issues) t = count_where (has_type t) issues /\
  type_completed (issue_types_of issues) t
    = count_where (fun x => has_type t x && spec_completed x) issues /\
  (dict_get t (issue_types_of issues) = None
   <-> count_where (has_type t) issues = 0).
Proof.
  split; [reflexivity|]. split; [apply issue_types_of_snoc|].
  rewrite issue_types_of_snoc.
  split; [apply count_issue_total|]. split; [apply count_issue_completed|].
  split; [apply scan_total|]. split; [apply scan_completed | apply scan_absent].
Qed.

Example breakdown_of_demo :
  issue_types_of [proj_1; proj_2; refund_issue]
  = [("Story", VDict [("total", VInt 1); ("completed", VInt 1)]);
     ("Bug", VDict [("total", VInt 1); ("completed", VInt 0)]);
     ("Task", VDict [("total", VInt 1); ("completed", VInt 1)])].
Proof. reflexivity. Qed.

(** ** C10: the metrics of the report agree with each other *)

(** C10.  In the metrics of [generate_sprint_report], for every list of
    issues: [completed_issues <= total_issues]; every issue type has
    [completed <= total]; each type is listed once; the totals of the types
    add up to [total_issues] and their completed counts to
    [completed_issues]. *)
Theorem report_metrics_consistent (issues : list Issue) :
  int_of (subscript (report_metrics issues) "completed_issues")
    <= int_of (subscript (report_metrics issues) "total_issues") /\
  (forall t : string,
      type_completed (as_dict (subscript (report_metrics issues) "issue_types")) t
      <= type_total (as_dict (subscript (report_metrics issues) "issue_types")) t) /\
  NoDup (dict_keys (as_dict (subscript (report_metrics issues) "issue_types"))) /\
  sum_entries entry_total
      (as_dict (subscript (report_metrics issues) "issue_types"))
    = int_of (subscript (report_metrics issues) "total_issues") /\
  sum_entries entry_completed
      (as_dict (subscript (report_metrics issues) "issue_types"))
    = int_of (subscript (report_metrics issues) "completed_issues").
Proof.
  change (subscript (report_metrics issues) "issue_types")
    with (VDict (issue_types_of issues)).
  change (subscript (report_metrics issues) "total_issues")
    with (VInt (total_issues issues)).
  change (subscript (report_metrics issues) "completed_issues")
    with (VInt (completed_issues issues)).
  simpl as_dict. simpl int_of.
  unfold total_issues, completed_issues. rewrite filter_issue_completed.
  fold (count_where spec_completed issues).
  split; [apply count_where_length|].
  split; [intros t; rewrite scan_total, scan_completed; apply count_where_and|].
  split; [apply scan_nodup|].
  split; [apply scan_sum_total | apply scan_sum_completed].
Qed.

(** * Further properties of the handlers *)

(** ** How many times a handler changes the backend *)

Lemma writes_app (cs1 cs2 : list Call) :
  writes (cs1 ++ cs2) = (writes cs1 + writes cs2)%nat.
Proof. unfold writes. now rewrite filter_app, length_app. Qed.

Section Writes.

Context {A B : Type}.

Lemma writes_ret (a : A) : writes_at_most 0 (ret a).
Proof. intros j h. exists []. simpl. now rewrite app_nil_r. Qed.

Lemma writes_raise (e : Jira -> Exn) : writes_at_most 0 (@raise A e).
Proof. intros j h. exists []. simpl. now rewrite app_nil_r. Qed.

Lemma writes_call (c : Call) (answer : Jira -> History -> Result A) :
  writes_at_most (if mutating c then 1 else 0) (call c answer).
Proof.
  intros j h. exists [c]. split; [reflexivity|].
  unfold writes. simpl. destruct (mutating c); simpl; lia.
Qed.

Lemma writes_bind (n1 n2 : nat) (m : M A) (f : A -> M B) :
  writes_at_most n1 m -> (forall a, writes_at_most n2 (f a)) ->
  writes_at_most (n1 + n2) (bind m f).
Proof.
  intros Hm Hf j h. unfold bind.
  destruct (Hm j h) as (cs1 & Hlog1 & Hn1).
  destruct (m j h) as [[a|e] h1]; simpl in Hlog1; subst h1.
  - destruct (Hf a j (h ++ cs1)) as (cs2 & Hlog2 & Hn2).
    exists (cs1 ++ cs2). rewrite Hlog2, writes_app, app_assoc. split; [reflexivity | lia].
  - exists cs1. split; [reflexivity | lia].
Qed.

Lemma writes_weaken (n1 n2 : nat) (m : M A) :
  (n1 <= n2)%nat -> writes_at_most n1 m -> writes_at_most n2 m.
Proof.
  intros Hle Hm j h. destruct (Hm j h) as (cs & Hlog & Hn).
  exists cs. split; [exact Hlog | lia].
Qed.

End Writes.

Lemma writes_for_each {A B : Type} (f : A -> M B) (l : list A) :
  (forall a, writes_at_most 0 (f a)) -> writes_at_most 0 (for_each f l).
Proof.
  intros Hf. induction l as [|a l IH]; simpl.
  - apply writes_ret.
  - apply (writes_bind 0 0); [apply Hf|]. intros b.
    apply (writes_bind 0 0); [exact IH|]. intros bs. apply writes_ret.
Qed.

Lemma writes_ask : writes_at_most 0 ask.
Proof. intros j h. exists []. simpl. now rewrite app_nil_r. Qed.

Lemma writes_attr {A : Type} (name : string) (a : option A) :
  writes_at_most 0 (attr name a).
Proof. destruct a; [apply writes_ret | apply writes_raise]. Qed.

Lemma writes_sprint_info_of (s : Sprint) : writes_at_most 0 (sprint_info_of s).
Proof.
  unfold sprint_info_of.
  apply (writes_bind 0 0); [apply writes_attr|]. intros state.
  apply (writes_bind 0 0); [apply (writes_call (CSearchIssues _ _))|].
  intros issues. apply writes_ret.
Qed.

Lemma writes_try_except (n : nat) (body : M Val) (j : Jira) (h : History) :
  writes_at_most n body ->
  exists cs, snd (try_except body j h) = h ++ cs /\ (writes cs <= n)%nat.
Proof.
  intros Hbody. destruct (Hbody j h) as (cs & Hlog & Hn).
  exists cs. split; [|exact Hn].
  unfold try_except. destruct (body j h) as [[v|e] h']; exact Hlog.
Qed.

(** The tools that look things up never change the backend, and the other
    tools change it at most once per invocation, whatever the backend
    answers: among the calls a handler adds to the log, none is a mutating
    call for a read-only tool, and at most one is for any other tool. *)
Theorem handler_writes_at_most_once (t : Tool) (j : Jira) (h : History) :
  exists cs : list Call,
    snd (handle t j h) = h ++ cs /\
    (writes cs <= if read_only_tool t then 0 else 1)%nat.
Proof.
  destruct t; simpl; apply writes_try_except.
  - apply (writes_bind 0 0); [apply (writes_call (CSprints _ _))|]. intros sprints.
    apply (writes_bind 0 0); [|intros; apply writes_ret].
    apply writes_for_each, writes_sprint_info_of.
  - apply (writes_bind 0 0); [apply (writes_call (CIssue _ _))|]. intros i.
    apply (writes_bind 0 0); [apply (writes_call (CIssue _ _))|].
    intros; apply writes_ret.
  - apply (writes_bind 1 0); [apply (writes_call (CCreateIssue _))|].
    intros; apply writes_ret.
  - apply (writes_bind 0 1); [apply (writes_call (CTransitions _))|]. intros ts.
    apply (writes_bind 0 1); [apply writes_ask|]. intros runtime.
    destruct (find_transition_id (str_lower runtime) ts transition_to) as [tid|];
      [|apply (writes_weaken 0); [lia | apply writes_ret]].
    destruct (negb (truthy (VStr tid)));
      [apply (writes_weaken 0); [lia | apply writes_ret]|].
    apply (writes_bind 1 0); [apply (writes_call (CTransitionIssue _ _))|].
    intros; apply writes_ret.
  - apply (writes_bind 1 0); [apply (writes_call (CAssignIssue _ _))|].
    intros; apply writes_ret.
  - apply (writes_bind 1 0); [apply (writes_call (CAddIssuesToSprint _ _))|].
    intros; apply writes_ret.
  - apply (writes_bind 0 0); [apply (writes_call (CSearchIssues _ _))|].
    intros; apply writes_ret.
  - apply (writes_bind 1 0); [apply (writes_call (CCreateSprint _ _ _ _ _))|].
    intros; apply writes_ret.
  - apply (writes_bind 0 0); [apply (writes_call (CSprint _))|]. intros s.
    apply (writes_bind 0 0); [apply (writes_call (CSprintReport _ _))|]. intros r.
    apply (writes_bind 0 0); [apply (writes_call (CSearchIssues _ _))|].
    intros; apply writes_ret.
Qed.

(** ** Telling a failure from a success *)

Ltac open_handler :=
  unfold jira.sprints, jira.search_issues, jira.issue,
    jira.create_issue, jira.transitions, jira.transition_issue, jira.assign_issue,
    jira.add_issues_to_sprint, jira.create_sprint, jira.sprint, jira.sprint_report;
  unfold try_except, bind, ret, call, ask.

Ltac error_or_not := solve [left; eexists; reflexivity | right; reflexivity].

(** A response is either exactly an error record, or a record without the
    key ["error"]: no success shape of any tool has that key, so its
    presence alone tells the caller that the invocation failed. *)
Theorem error_key_marks_failure (t : Tool) (j : Jira) (h : History) :
  (exists msg : string, fst (handle t j h) = error_record msg) \/
  dict_get "error" (as_dict (fst (handle t j h))) = None.
Proof.
  destruct t as [b st | k | p ty s d a pr l sp | k target | k a | k sid
                 | p n | b n s e g | b sid]; simpl.
  - unfold get_sprint_details. open_handler.
    destruct (jira_sprints j h b st) as [sprints|e]; [|error_or_not].
    destruct (for_each sprint_info_of sprints j _) as [[details|e] h'];
      error_or_not.
  - unfold get_issue_details. open_handler.
    destruct (jira_issue j h k None); [|error_or_not].
    destruct (jira_issue j _ k (Some "changelog")); error_or_not.
  - unfold create_issue. open_handler.
    destruct (jira_create_issue j h _); error_or_not.
  - unfold update_issue_status. open_handler.
    destruct (jira_transitions j h k) as [ts|e]; [|error_or_not].
    destruct (find_transition_id (str_lower j) ts target) as [tid|];
      [|error_or_not].
    destruct (negb (truthy (VStr tid))); [error_or_not|].
    destruct (jira_transition_issue j _ k tid); error_or_not.
  - unfold assign_issue. open_handler.
    destruct (jira_assign_issue j h k a); error_or_not.
  - unfold add_issue_to_sprint. open_handler.
    destruct (jira_add_issues_to_sprint j h sid [k]); error_or_not.
  - unfold get_project_backlog. open_handler.
    destruct (jira_search_issues j h _ _); error_or_not.
  - unfold create_sprint. open_handler.
    destruct (jira_create_sprint j h n b _ _ g); error_or_not.
  - unfold generate_sprint_report. open_handler.
    destruct (jira_sprint j h sid); [|error_or_not].
    destruct (jira_sprint_report j _ b sid); [|error_or_not].
    destruct (jira_search_issues j _ _ _); error_or_not.
Qed.

(** ** get_sprint_details: one search per sprint, all or nothing *)

Lemma sprint_info_of_ok (s : Sprint) (j : Jira) (h : History)
    (state : string) (issues : list Issue) :
  sprint_state s = Some state ->
  jira_search_issues j h
    ("sprint = " ++ str_of_int (sprint_id s) ++ " ORDER BY status")%string None
    = Ok issues ->
  exists info : Dict,
    sprint_info_of s j h = (Ok (VDict info), h ++ [sprint_search s]) /\
    dict_get "id" info = Some (VInt (sprint_id s)) /\
    dict_get "issues" info = Some (VList (map sprint_issue_summary issues)) /\
    dict_get "metrics" info
      = Some (sprint_metrics (map sprint_issue_summary issues)).
Proof.
  intros Hstate Hsearch.
  unfold sprint_info_of, attr, jira.search_issues. rewrite Hstate.
  unfold bind, ret, call. rewrite Hsearch.
  eexists. split; [reflexivity|]. repeat split; reflexivity.
Qed.

Lemma for_each_sprints_ok (j : Jira) (sprints : list Sprint) :
  Forall (fun s => sprint_state s <> None) sprints ->
  (forall h q, exn_of (jira_search_issues j h q None) = None) ->
  forall h, exists details : list Val,
    for_each sprint_info_of sprints j h = (Ok details, h ++ map sprint_search sprints) /\
    map (fun d => dict_get "id" (as_dict d)) details
      = map (fun s => Some (VInt (sprint_id s))) sprints.
Proof.
  intros Hstates Hsearch.
  induction sprints as [|s l IH]; intros h.
  - exists []. simpl. now rewrite app_nil_r.
  - inversion Hstates as [|? ? Hs Hl]; subst.
    destruct (sprint_state s) as [state|] eqn:Es; [|congruence].
    pose proof (Hsearch h
      ("sprint = " ++ str_of_int (sprint_id s) ++ " ORDER BY status")%string) as Hq.
    destruct (jira_search_issues j h _ None) as [issues|e] eqn:Eq; [|discriminate].
    destruct (sprint_info_of_ok s j h state issues Es Eq) as (info & Hrun & Hid & _).
    destruct (IH Hl (h ++ [sprint_search s])) as (details & Hrest & Hids).
    exists (VDict info :: details).
    cbn [for_each]. unfold bind at 1. rewrite Hrun.
    unfold bind at 1. rewrite Hrest. unfold ret.
    split.
    + now rewrite <- app_assoc.
    + cbn [map as_dict]. now rewrite Hid, Hids.
Qed.

(** When the board's sprints all carry a state and no search fails,
    [get_sprint_details] makes one call for the sprints and then one search
    per sprint, in the order of the sprints, and its answer lists one
    record per sprint in that order (here: by their ids). *)
Theorem sprint_details_one_search_per_sprint (board_id : Z) (state : string)
    (j : Jira) (h : History) (sprints : list Sprint) :
  jira_sprints j h board_id state = Ok sprints ->
  Forall (fun s => sprint_state s <> None) sprints ->
  (forall h' q, exn_of (jira_search_issues j h' q None) = None) ->
  exists details : list Val,
    get_sprint_details board_id state j h
      = (VDict [("sprints", VList details)],
         (h ++ [CSprints board_id state]) ++ map sprint_search sprints) /\
    map (fun d => dict_get "id" (as_dict d)) details
      = map (fun s => Some (VInt (sprint_id s))) sprints.
Proof.
  intros Hsprints Hstates Hsearch.
  destruct (for_each_sprints_ok j sprints Hstates Hsearch
              (h ++ [CSprints board_id state])) as (details & Hrun & Hids).
  exists details. split; [|exact Hids].
  unfold get_sprint_details, jira.sprints. unfold try_except, bind, call, ret.
  now rewrite Hsprints, Hrun.
Qed.

Lemma sprint_details_one_search_per_sprint_witness :
  exists details : list Val,
    get_sprint_details 42 "active" demo_jira []
      = (VDict [("sprints", VList details)],
         ([] ++ [CSprints 42 "active"]) ++ map sprint_search [sprint_7]) /\
    map (fun d => dict_get "id" (as_dict d)) details
      = map (fun s => Some (VInt (sprint_id s))) [sprint_7].
Proof.
  apply (sprint_details_one_search_per_sprint 42 "active" demo_jira [] [sprint_7]).
  - reflexivity.
  - repeat constructor. discriminate.
  - intros h' q. reflexivity.
Defined.

Lemma for_each_fails {A B : Type} (f : A -> M B) (a : A) (l : list A) (j : Jira) :
  (forall h, exists e h', f a j h = (Raise e, h')) ->
  In a l ->
  forall h, exists e h', for_each f l j h = (Raise e, h').
Proof.
  intros Hfail. induction l as [|x l IH]; intros Hin h; [destruct Hin|].
  cbn [for_each]. unfold bind at 1.
  destruct (f x j h) as [[b|e] h1] eqn:Ex; [|now exists e, h1].
  destruct Hin as [->|Hin].
  - destruct (Hfail h) as (e & h' & Hf). congruence.
  - destruct (IH Hin h1) as (e & h' & Hrest).
    unfold bind. rewrite Hrest. now exists e, h'.
Qed.

(** [get_sprint_details] gives all the sprints or none: when one sprint of
    the board has no [state] attribute, the answer is an error record,
    whatever the other sprints are and wherever that sprint stands in the
    list. *)
Theorem sprint_without_state_fails_listing (board_id : Z) (state : string)
    (j : Jira) (h : History) (sprints : list Sprint) (s : Sprint) :
  jira_sprints j h board_id state = Ok sprints ->
  In s sprints ->
  sprint_state s = None ->
  exists msg : string,
    fst (get_sprint_details board_id state j h) = error_record msg.
Proof.
  intros Hsprints Hin Hnone.
  assert (Hfail : forall h0, exists e h', sprint_info_of s j h0 = (Raise e, h')).
  { intros h0. unfold sprint_info_of, attr. rewrite Hnone.
    unfold bind, raise. now eexists _, _. }
  destruct (for_each_fails sprint_info_of s sprints j Hfail Hin
              (h ++ [CSprints board_id state])) as (e & h' & Hrun).
  exists (exn_str e).
  unfold get_sprint_details, jira.sprints. unfold try_except, bind, call, ret.
  now rewrite Hsprints, Hrun.
Qed.

Lemma sprint_without_state_fails_listing_witness :
  exists msg : string,
    fst (get_sprint_details 42 "active"
           {| jira_sprints := fun _ _ _ => Ok [sprint_7; sprint_without_state];
              jira_search_issues := jira_search_issues demo_jira;
              jira_issue := jira_issue demo_jira;
              jira_create_issue := jira_create_issue demo_jira;
              jira_transitions := jira_transitions demo_jira;
              jira_transition_issue := jira_transition_issue demo_jira;
              jira_assign_issue := jira_assign_issue demo_jira;
              jira_add_issues_to_sprint := jira_add_issues_to_sprint demo_jira;
              jira_create_sprint := jira_create_sprint demo_jira;
              jira_sprint := jira_sprint demo_jira;
              jira_sprint_report := jira_sprint_report demo_jira;
              missing_attribute := missing_attribute demo_jira;
              lower_non_ascii := lower_non_ascii demo_jira |} [])
    = error_record msg.
Proof.
  apply (sprint_without_state_fails_listing 42 "active" _ []
           [sprint_7; sprint_without_state] sprint_without_state).
  - reflexivity.
  - right. left. reflexivity.
  - reflexivity.
Defined.

(** ** generate_sprint_report: the unused fetch can still fail the report *)

(** The native sprint report is not read, but it is fetched: when that
    fetch raises, [generate_sprint_report] returns the error record of the
    exception and never searches the issues of the sprint. *)
Theorem report_fetch_fault_fails_report (board_id sid : Z) (j : Jira) (h : History)
    (s : Sprint) (e : Exn) :
  jira_sprint j h sid = Ok s ->
  jira_sprint_report j (h ++ [CSprint sid]) board_id sid = Raise e ->
  generate_sprint_report board_id sid j h
  = (error_record (exn_str e),
     (h ++ [CSprint sid]) ++ [CSprintReport board_id sid]).
Proof.
  intros Hs Hr. unfold generate_sprint_report. open_handler.
  now rewrite Hs, Hr.
Qed.

(** ** get_issue_details: two fetches *)

(** [get_issue_details] fetches the issue twice: the history of the answer
    comes from the second fetch (the one that expands the changelog) and
    everything else from the first, each list in the order of the backend. *)
Theorem issue_details_from_two_fetches (key : string) (j : Jira) (h : History)
    (i1 i2 : Issue) :
  jira_issue j h key None = Ok i1 ->
  jira_issue j (h ++ [CIssue key None]) key (Some "changelog") = Ok i2 ->
  get_issue_details key j h
    = (issue_details i1 (issue_changelog i2),
       (h ++ [CIssue key None]) ++ [CIssue key (Some "changelog")]) /\
  dict_get "history" (as_dict (issue_details i1 (issue_changelog i2)))
    = Some (VList (map history_record (issue_changelog i2))) /\
  dict_get "comments" (as_dict (issue_details i1 (issue_changelog i2)))
    = Some (VList (map comment_record (f_comments (issue_fields i1)))) /\
  dict_get "key" (as_dict (issue_details i1 (issue_changelog i2)))
    = Some (VStr (issue_key i1)).
Proof.
  intros H1 H2. split; [|repeat split; reflexivity].
  unfold get_issue_details. open_handler. now rewrite H1, H2.
Qed.

(** ** Percentages stay between 0 and 100 *)

Lemma story_point_sums (issues : list Issue) :
  (total_story_points (map sprint_issue_summary issues) == spec_sum issues)%Q /\
  (completed_points (map sprint_issue_summary issues)
   == spec_sum (filter spec_completed issues))%Q /\
  (report_total_story_points issues == spec_sum issues)%Q /\
  (report_completed_points issues == spec_sum (filter spec_completed issues))%Q.
Proof.
  split; [apply sum_summaries|]. split.
  - unfold completed_points. rewrite filter_summaries. apply sum_summaries.
  - split; [apply sum_issues|].
    unfold report_completed_points. rewrite filter_issue_completed. apply sum_issues.
Qed.

Lemma percentage_num_compat (c t c' t' : Q) :
  (c == c')%Q -> (t == t')%Q ->
  (num (percentage c t) == num (percentage c' t'))%Q.
Proof.
  intros Hc Ht. unfold percentage.
  assert (E : Qle_bool t 0 = Qle_bool t' 0) by now rewrite Ht.
  rewrite E. destruct (Qle_bool t' 0); simpl; [reflexivity|].
  now rewrite Hc, Ht.
Qed.

Lemma percentage_bounds (c t : Q) :
  (0 <= c)%Q -> (c <= t)%Q ->
  (0 <= num (percentage c t))%Q /\ (num (percentage c t) <= 100)%Q.
Proof.
  intros Hc Hct. unfold percentage.
  destruct (Qle_bool t 0) eqn:E; simpl.
  - split; unfold Qle; simpl; lia.
  - assert (Hpos : (0 < t)%Q).
    { apply Qnot_le_lt. intros Hle. apply Qle_bool_iff in Hle. congruence. }
    assert (Hlo : (0 <= c / t)%Q).
    { apply Qle_shift_div_l; [exact Hpos|]. now rewrite Qmult_0_l. }
    assert (Hhi : (c / t <= 1)%Q).
    { apply Qle_shift_div_r; [exact Hpos|]. now rewrite Qmult_1_l. }
    split.
    + apply Qmult_le_0_compat; [exact Hlo|]. unfold Qle; simpl; lia.
    + apply Qle_trans with (1 * 100)%Q.
      * apply Qmult_le_compat_r; [exact Hhi|]. unfold Qle; simpl; lia.
      * unfold Qle; simpl; lia.
Qed.

(** The share of completed issues that [generate_sprint_report] reports is
    always between 0 and 100, for every list of issues (0 for none). *)
Theorem issue_completion_between_0_and_100 (issues : list Issue) :
  (0 <= num (subscript (report_metrics issues) "completion_percentage"))%Q /\
  (num (subscript (report_metrics issues) "completion_percentage") <= 100)%Q.
Proof.
  change (subscript (report_metrics issues) "completion_percentage")
    with (percentage (inject_Z (completed_issues issues))
                     (inject_Z (total_issues issues))).
  apply percentage_bounds.
  - change 0%Q with (inject_Z 0). rewrite <- Zle_Qle.
    unfold completed_issues. lia.
  - rewrite <- Zle_Qle. unfold completed_issues, total_issues.
    apply (count_where_length issue_completed).
Qed.

Lemma spec_sum_nonneg (l : list Issue) :
  Forall (fun i => (0 <= spec_points i)%Q) l -> (0 <= spec_sum l)%Q.
Proof.
  induction 1 as [|i l Hi Hl IH]; simpl.
  - apply Qle_refl.
  - change 0%Q with (0 + 0)%Q. now apply Qplus_le_compat.
Qed.

Lemma spec_sum_filter_le (p : Issue -> bool) (l : list Issue) :
  Forall (fun i => (0 <= spec_points i)%Q) l ->
  (spec_sum (filter p l) <= spec_sum l)%Q.
Proof.
  induction 1 as [|i l Hi Hl IH]; simpl.
  - apply Qle_refl.
  - destruct (p i); simpl.
    + apply Qplus_le_compat; [apply Qle_refl | exact IH].
    + rewrite <- (Qplus_0_l (spec_sum (filter p l))).
      now apply Qplus_le_compat.
Qed.

Lemma filter_nonneg (p : Issue -> bool) (l : list Issue) :
  Forall (fun i => (0 <= spec_points i)%Q) l ->
  Forall (fun i => (0 <= spec_points i)%Q) (filter p l).
Proof.
  intros H. apply Forall_forall. intros i Hin.
  apply filter_In in Hin. destruct Hin as [Hin _].
  rewrite Forall_forall in H. now apply H.
Qed.

(** When no issue has negative story points, the story-point percentages
    of [get_sprint_details] and [generate_sprint_report] are between 0 and
    100, and the completed points do not exceed the total. *)
Theorem story_point_completion_between_0_and_100 (issues : list Issue) :
  Forall (fun i => (0 <= spec_points i)%Q) issues ->
  (completed_points (map sprint_issue_summary issues)
   <= total_story_points (map sprint_issue_summary issues))%Q /\
  (0 <= num (subscript (sprint_metrics (map sprint_issue_summary issues))
                       "completion_percentage"))%Q /\
  (num (subscript (sprint_metrics (map sprint_issue_summary issues))
                  "completion_percentage") <= 100)%Q /\
  (0 <= num (subscript (report_metrics issues) "story_point_completion"))%Q /\
  (num (subscript (report_metrics issues) "story_point_completion") <= 100)%Q.
Proof.
  intros Hnn.
  destruct (story_point_sums issues) as (Ht & Hc & Hrt & Hrc).
  pose proof (spec_sum_nonneg _ (filter_nonneg spec_completed _ Hnn)) as Hc0.
  pose proof (spec_sum_filter_le spec_completed _ Hnn) as Hle.
  assert (H1 : (completed_points (map sprint_issue_summary issues)
                <= total_story_points (map sprint_issue_summary issues))%Q)
    by now rewrite Ht, Hc.
  split; [exact H1|].
  change (subscript (sprint_metrics (map sprint_issue_summary issues))
                    "completion_percentage")
    with (percentage (completed_points (map sprint_issue_summary issues))
                     (total_story_points (map sprint_issue_summary issues))).
  change (subscript (report_metrics issues) "story_point_completion")
    with (percentage (report_completed_points issues)
                     (report_total_story_points issues)).
  assert (H0 : (0 <= completed_points (map sprint_issue_summary issues))%Q)
    by now rewrite Hc.
  assert (Hr0 : (0 <= report_completed_points issues)%Q) by now rewrite Hrc.
  assert (Hr1 : (report_completed_points issues
                 <= report_total_story_points issues)%Q) by now rewrite Hrc, Hrt.
  pose proof (percentage_bounds _ _ H0 H1) as B1.
  pose proof (percentage_bounds _ _ Hr0 Hr1) as B2.
  split; [apply B1|]. split; [apply B1|]. split; apply B2.
Qed.

Lemma story_point_completion_between_0_and_100_witness :
  (completed_points (map sprint_issue_summary [proj_1; proj_2])
   <= total_story_points (map sprint_issue_summary [proj_1; proj_2]))%Q /\
  (0 <= num (subscript (sprint_metrics (map sprint_issue_summary [proj_1; proj_2]))
                       "completion_percentage"))%Q /\
  (num (subscript (sprint_metrics (map sprint_issue_summary [proj_1; proj_2]))
                  "completion_percentage") <= 100)%Q /\
  (0 <= num (subscript (report_metrics [proj_1; proj_2]) "story_point_completion"))%Q /\
  (num (subscript (report_metrics [proj_1; proj_2]) "story_point_completion") <= 100)%Q.
Proof.
  apply (story_point_completion_between_0_and_100 [proj_1; proj_2]).
  repeat constructor; unfold Qle; simpl; lia.
Defined.

(** The two handlers that aggregate story points agree: for the same
    issues, [get_sprint_details] (which reads the summaries it has built)
    and [generate_sprint_report] (which reads the backend records) report
    the same number of issues, the same total, the same completed points
    and the same story-point percentage. *)
Theorem sprint_details_and_report_agree (issues : list Issue) :
  subscript (sprint_metrics (map sprint_issue_summary issues)) "total_issues"
    = subscript (report_metrics issues) "total_issues" /\
  (num (subscript (sprint_metrics (map sprint_issue_summary issues))
                  "total_story_points")
   == num (subscript (report_metrics issues) "total_story_points"))%Q /\
  (num (subscript (sprint_metrics (map sprint_issue_summary issues))
                  "completed_story_points")
   == num (subscript (report_metrics issues) "completed_story_points"))%Q /\
  (num (subscript (sprint_metrics (map sprint_issue_summary issues))
                  "completion_percentage")
   == num (subscript (report_metrics issues) "story_point_completion"))%Q.
Proof.
  destruct (story_point_sums issues) as (Ht & Hc & Hrt & Hrc).
  split.
  - unfold subscript, sprint_metrics, report_metrics, total_issues. simpl.
    now rewrite length_map.
  - split; [|split].
    + change (total_story_points (map sprint_issue_summary issues)
              == report_total_story_points issues)%Q. now rewrite Ht, Hrt.
    + change (completed_points (map sprint_issue_summary issues)
              == report_completed_points issues)%Q. now rewrite Hc, Hrc.
    + apply percentage_num_compat; [now rewrite Hc, Hrc | now rewrite Ht, Hrt].
Qed.

(** ** A story-point field that is null *)

(** For an issue whose story-point field is present but null, the records
    of [get_sprint_details] and [get_project_backlog] carry [None] under
    ["story_points"] (the default 0 is for an absent attribute only),
    while the metrics count the issue as 0 points: adding it to a sprint
    leaves the total unchanged. *)
Theorem null_story_points_pass_through (i : Issue) (rest : list Issue) :
  customfield_10002 (issue_fields i) = Some None ->
  dict_get "story_points" (as_dict (sprint_issue_summary i)) = Some VNone /\
  dict_get "story_points" (as_dict (backlog_item i)) = Some VNone /\
  (total_story_points (map sprint_issue_summary (i :: rest))
   == total_story_points (map sprint_issue_summary rest))%Q /\
  (report_total_story_points (i :: rest) == report_total_story_points rest)%Q.
Proof.
  intros Hnull.
  split; [|split].
  - unfold sprint_issue_summary, story_points_attr. now rewrite Hnull.
  - unfold backlog_item, story_points_attr. now rewrite Hnull.
  - destruct (story_point_sums (i :: rest)) as (Ht & _ & Hrt & _).
    destruct (story_point_sums rest) as (Ht' & _ & Hrt' & _).
    assert (Hsum : (spec_sum (i :: rest) == spec_sum rest)%Q).
    { simpl. unfold spec_points at 1. rewrite Hnull. apply Qplus_0_l. }
    split; [now rewrite Ht, Ht', Hsum | now rewrite Hrt, Hrt', Hsum].
Qed.

Lemma null_story_points_pass_through_witness :
  dict_get "story_points" (as_dict (sprint_issue_summary null_points_issue))
    = Some VNone /\
  dict_get "story_points" (as_dict (backlog_item null_points_issue)) = Some VNone /\
  (total_story_points (map sprint_issue_summary (null_points_issue :: [proj_1]))
   == total_story_points (map sprint_issue_summary [proj_1]))%Q /\
  (report_total_story_points (null_points_issue :: [proj_1])
   == report_total_story_points [proj_1])%Q.
Proof.
  apply (null_story_points_pass_through null_points_issue [proj_1]). reflexivity.
Defined.

(** ** The breakdown by issue type: order of the keys, shape of the entries *)

Lemma keys_set (k : string) (v : Val) (d : Dict) :
  dict_keys (dict_set k v d)
  = match dict_get k d with
    | Some _ => dict_keys d
    | None => dict_keys d ++ [k]
    end.
Proof.
  induction d as [|[k0 v0] d IH]; simpl; [reflexivity|].
  destruct (k0 =? k)%string; simpl; [reflexivity|].
  rewrite IH. now destruct (dict_get k d).
Qed.

Lemma count_issue_keys (d : Dict) (i : Issue) :
  dict_keys (count_issue d i)
  = match dict_get (f_issuetype (issue_fields i)) d with
    | Some _ => dict_keys d
    | None => dict_keys d ++ [f_issuetype (issue_fields i)]
    end.
Proof.
  unfold count_issue, incr.
  destruct (issue_completed i);
    destruct (dict_get (f_issuetype (issue_fields i)) d) eqn:E;
    repeat (rewrite keys_set || rewrite dict_get_set_same || rewrite E);
    reflexivity.
Qed.

Lemma count_where_zero (p : Issue -> bool) (l : list Issue) :
  count_where p l = 0 <-> existsb p l = false.
Proof.
  induction l as [|x l IH]; [split; reflexivity|].
  rewrite count_where_cons. simpl existsb.
  pose proof (count_where_nonneg p l).
  destruct (p x); simpl one_if; simpl orb.
  - split; [lia | discriminate].
  - now rewrite Z.add_0_l.
Qed.

(** The keys of the breakdown stand in the order in which the issue types
    first arrive: an issue whose type was already seen leaves the keys as
    they are, an issue of a new type adds its type at the end. *)
Theorem breakdown_keys_in_arrival_order (issues : list Issue) (i : Issue) :
  dict_keys (issue_types_of (issues ++ [i]))
  = if existsb (has_type (f_issuetype (issue_fields i))) issues
    then dict_keys (issue_types_of issues)
    else dict_keys (issue_types_of issues) ++ [f_issuetype (issue_fields i)].
Proof.
  rewrite issue_types_of_snoc, count_issue_keys.
  destruct (existsb (has_type (f_issuetype (issue_fields i))) issues) eqn:E.
  - destruct (dict_get (f_issuetype (issue_fields i)) (issue_types_of issues)) eqn:G;
      [reflexivity|].
    apply scan_absent, count_where_zero in G. congruence.
  - apply count_where_zero, scan_absent in E. now rewrite E.
Qed.

Lemma shaped_set (ty : string) (n m : Z) (d : Dict) :
  entries_shaped d -> entries_shaped (dict_set ty (type_entry n m) d).
Proof.
  intros Hd t e Hget. destruct (string_dec t ty) as [->|Hne].
  - rewrite dict_get_set_same in Hget. injection Hget as <-. now exists n, m.
  - rewrite dict_get_set_other in Hget by exact Hne. now apply (Hd t).
Qed.

Lemma incr_total_entry (ty : string) (n m : Z) (d : Dict) :
  dict_get ty d = Some (type_entry n m) ->
  incr ty "total" d = dict_set ty (type_entry (n + 1) m) d.
Proof. intros H. unfold incr, dict_get_default. now rewrite H. Qed.

Lemma incr_completed_entry (ty : string) (n m : Z) (d : Dict) :
  dict_get ty d = Some (type_entry n m) ->
  incr ty "completed" d = dict_set ty (type_entry n (m + 1)) d.
Proof. intros H. unfold incr, dict_get_default. now rewrite H. Qed.

Lemma shaped_count_issue (d : Dict) (i : Issue) :
  entries_shaped d -> entries_shaped (count_issue d i).
Proof.
  intros Hd. unfold count_issue. cbv zeta.
  set (ty := f_issuetype (issue_fields i)).
  assert (Hopen : exists d1 n m,
             match dict_get ty d with
             | None => dict_set ty (VDict [("total", VInt 0); ("completed", VInt 0)]) d
             | Some _ => d
             end = d1 /\ entries_shaped d1 /\ dict_get ty d1 = Some (type_entry n m)).
  { destruct (dict_get ty d) as [e|] eqn:E.
    - destruct (Hd ty e E) as (n & m & ->). now exists d, n, m.
    - exists (dict_set ty (type_entry 0 0) d), 0, 0.
      split; [reflexivity|]. split; [now apply shaped_set|].
      apply dict_get_set_same. }
  destruct Hopen as (d1 & n & m & -> & Hd1 & Hty).
  rewrite (incr_total_entry ty n m d1 Hty).
  destruct (issue_completed i); [|now apply shaped_set].
  rewrite (incr_completed_entry ty (n + 1) m) by apply dict_get_set_same.
  now apply shaped_set, shaped_set.
Qed.

Lemma scan_shaped (l : list Issue) : entries_shaped (issue_types_of l).
Proof.
  induction l as [|i l IH] using rev_ind.
  - intros t e H. discriminate.
  - rewrite issue_types_of_snoc. now apply shaped_count_issue.
Qed.

(** Every entry of the breakdown is exactly [{"total": n, "completed": m}]
    where [n], at least 1, is the number of issues of that type and [m]
    the number of completed ones among them: no type is listed with an
    empty group, and no entry has other keys. *)
Theorem breakdown_entry_shape (issues : list Issue) (t : string) (e : Val) :
  dict_get t (issue_types_of issues) = Some e ->
  e = type_entry (count_where (has_type t) issues)
                 (count_where (fun x => has_type t x && spec_completed x) issues) /\
  1 <= count_where (has_type t) issues.
Proof.
  intros Hget.
  destruct (scan_shaped issues t e Hget) as (n & m & ->).
  pose proof (scan_total t issues) as Hn.
  pose proof (scan_completed t issues) as Hm.
  unfold type_total, type_completed, dict_get_default in Hn, Hm.
  rewrite Hget in Hn, Hm.
  change (entry_total (type_entry n m)) with n in Hn.
  change (entry_completed (type_entry n m)) with m in Hm.
  rewrite <- Hn, <- Hm.
  split; [reflexivity|].
  pose proof (count_where_nonneg (has_type t) issues) as Hnn.
  destruct (Z.eq_dec (count_where (has_type t) issues) 0) as [Hz|Hnz].
  - apply scan_absent in Hz. congruence.
  - rewrite <- Hn in *. lia.
Qed.

Lemma breakdown_entry_shape_witness :
  VDict [("total", VInt 1); ("completed", VInt 0)]
    = type_entry (count_where (has_type "Bug") [proj_1; proj_2])
        (count_where (fun x => has_type "Bug" x && spec_completed x)
                     [proj_1; proj_2]) /\
  1 <= count_where (has_type "Bug") [proj_1; proj_2].
Proof.
  apply (breakdown_entry_shape [proj_1; proj_2] "Bug"). reflexivity.
Defined.

(** ** The counts of the report do not depend on the order of the issues *)

Lemma filter_perm (p : Issue -> bool) (l l' : list Issue) :
  Permutation l l' -> Permutation (filter p l) (filter p l').
Proof.
  induction 1 as [|x l l' _ IH|x y l|l l' l'' _ IH1 _ IH2]; simpl.
  - constructor.
  - destruct (p x); [now constructor | exact IH].
  - destruct (p x), (p y); try apply Permutation_refl. apply perm_swap.
  - now apply Permutation_trans with (filter p l').
Qed.

Lemma count_where_perm (p : Issue -> bool) (l l' : list Issue) :
  Permutation l l' -> count_where p l = count_where p l'.
Proof.
  intros H. unfold count_where.
  now rewrite (Permutation_length (filter_perm p l l' H)).
Qed.

(** What [generate_sprint_report] counts does not depend on the order in
    which the backend returns the issues: the number of issues, the number
    of completed issues, the percentage computed from these two integers
    and the two counters of each issue type are the same for two lists
    that are permutations of each other.  (The story-point sums are sums
    of floats in arrival order and are left out; the order of the keys of
    the breakdown can differ.) *)
Theorem report_metrics_order_independent (l l' : list Issue) :
  Permutation l l' ->
  subscript (report_metrics l) "total_issues"
    = subscript (report_metrics l') "total_issues" /\
  subscript (report_metrics l) "completed_issues"
    = subscript (report_metrics l') "completed_issues" /\
  subscript (report_metrics l) "completion_percentage"
    = subscript (report_metrics l') "completion_percentage" /\
  forall t : string,
    type_total (issue_types_of l) t = type_total (issue_types_of l') t /\
    type_completed (issue_types_of l) t = type_completed (issue_types_of l') t.
Proof.
  intros Hperm.
  assert (Hn : total_issues l = total_issues l').
  { unfold total_issues. now rewrite (Permutation_length Hperm). }
  assert (Hc : completed_issues l = completed_issues l')
    by apply (count_where_perm issue_completed l l' Hperm).
  split; [change (VInt (total_issues l) = VInt (total_issues l')); now rewrite Hn|].
  split; [change (VInt (completed_issues l) = VInt (completed_issues l'));
          now rewrite Hc|].
  split.
  - change (percentage (inject_Z (completed_issues l)) (inject_Z (total_issues l))
            = percentage (inject_Z (completed_issues l'))
                         (inject_Z (total_issues l'))).
    now rewrite Hn, Hc.
  - intros t. rewrite !scan_total, !scan_completed.
    split; now apply count_where_perm.
Qed.

Lemma report_metrics_order_independent_witness :
  subscript (report_metrics [proj_1; proj_2]) "total_issues"
    = subscript (report_metrics [proj_2; proj_1]) "total_issues" /\
  subscript (report_metrics [proj_1; proj_2]) "completed_issues"
    = subscript (report_metrics [proj_2; proj_1]) "completed_issues" /\
  subscript (report_metrics [proj_1; proj_2]) "completion_percentage"
    = subscript (report_metrics [proj_2; proj_1]) "completion_percentage" /\
  forall t : string,
    type_total (issue_types_of [proj_1; proj_2]) t
      = type_total (issue_types_of [proj_2; proj_1]) t /\
    type_completed (issue_types_of [proj_1; proj_2]) t
      = type_completed (issue_types_of [proj_2; proj_1]) t.
Proof.
  apply (report_metrics_order_independent [proj_1; proj_2] [proj_2; proj_1]).
  apply perm_swap.
Defined.

(** ** update_issue_status: the case of the target *)

Lemma lower_ascii_idem (c : ascii) : lower_ascii (lower_ascii c) = lower_ascii c.
Proof.
  destruct c as [[] [] [] [] [] [] [] []]; reflexivity.
Qed.

Lemma lower_idem (s : string) : lower (lower s) = lower s.
Proof.
  induction s as [|c s IH]; simpl; [reflexivity|].
  now rewrite lower_ascii_idem, IH.
Qed.

Lemma str_lower_ascii_case (j : Jira) (a b : string) :
  lower a = lower b -> str_lower j a = str_lower j b.
Proof. intros Hab. unfold str_lower. now rewrite Hab. Qed.

Lemma find_transition_id_lower (f : string -> string) (ts : list Transition)
    (a b : string) :
  f a = f b -> find_transition_id f ts a = find_transition_id f ts b.
Proof.
  intros Hab. induction ts as [|t ts IH]; simpl; [reflexivity|].
  now rewrite Hab, IH.
Qed.

(** Two targets that differ only in the case of ASCII letters are served
    alike, whatever [str.lower] does to the other characters: the same
    transition is selected among any transitions, and
    [update_issue_status] makes the same backend calls for both.  In
    particular a target can be given in lower case. *)
Theorem target_case_is_irrelevant (a b : string) :
  lower a = lower b ->
  lower (lower a) = lower a /\
  (forall j ts,
      find_transition_id (str_lower j) ts a = find_transition_id (str_lower j) ts b) /\
  (forall key j h,
      snd (update_issue_status key a j h) = snd (update_issue_status key b j h)).
Proof.
  intros Hab. split; [apply lower_idem|].
  split;
    [intros j ts; now apply find_transition_id_lower, str_lower_ascii_case|].
  intros key j h. unfold update_issue_status. open_handler.
  destruct (jira_transitions j h key) as [ts|e]; [|reflexivity].
  rewrite (find_transition_id_lower (str_lower j) ts a b
             (str_lower_ascii_case j a b Hab)).
  destruct (find_transition_id (str_lower j) ts b) as [tid|]; [|reflexivity].
  destruct (negb (truthy (VStr tid))); [reflexivity|].
  destruct (jira_transition_issue j _ key tid); reflexivity.
Qed.

Lemma target_case_is_irrelevant_witness :
  lower (lower "done") = lower "done" /\
  (forall j ts,
      find_transition_id (str_lower j) ts "done"
      = find_transition_id (str_lower j) ts "DONE") /\
  (forall key j h,
      snd (update_issue_status key "done" j h)
      = snd (update_issue_status key "DONE" j h)).
Proof.
  apply (target_case_is_irrelevant "done" "DONE"). reflexivity.
Defined.

(** ** Completed statuses are matched with their case *)

Lemma lower_ascii_not_C_or_D (c : ascii) :
  lower_ascii c <> "C"%char /\ lower_ascii c <> "D"%char.
Proof.
  destruct c as [[] [] [] [] [] [] [] []]; split; discriminate.
Qed.

(** Unlike transition names, status names are compared with their case: a
    status written in lower case, whatever it is, never counts as
    completed, in either aggregating handler. *)
Theorem lower_case_status_not_completed (i : Issue) (s : string) :
  f_status (issue_fields i) = lower s ->
  issue_completed i = false /\
  summary_completed (sprint_issue_summary i) = false.
Proof.
  intros Hs. rewrite summary_completed_spec, is_completed_spec.
  assert (H : spec_completed i = false); [|now split].
  unfold spec_completed. rewrite Hs.
  destruct s as [|c s]; [reflexivity|]. simpl lower.
  destruct (lower_ascii_not_C_or_D c) as [HC HD].
  assert (E1 : (String (lower_ascii c) (lower s) =? "Done")%string = false)
    by (apply String.eqb_neq; intros E; injection E; congruence).
  assert (E2 : (String (lower_ascii c) (lower s) =? "Closed")%string = false)
    by (apply String.eqb_neq; intros E; injection E; congruence).
  assert (E3 : (String (lower_ascii c) (lower s) =? "Completed")%string = false)
    by (apply String.eqb_neq; intros E; injection E; congruence).
  now rewrite E1, E2, E3.
Qed.

Lemma lower_case_status_not_completed_witness :
  issue_completed (sample_issue "PROJ-5" "Docs" "done" "Task" None None) = false /\
  summary_completed
    (sprint_issue_summary (sample_issue "PROJ-5" "Docs" "done" "Task" None None))
    = false.
Proof.
  apply (lower_case_status_not_completed
           (sample_issue "PROJ-5" "Docs" "done" "Task" None None) "Done").
  reflexivity.
Defined.

(** Witnesses of the two fetch properties above. *)

Lemma report_fetch_fault_fails_report_witness :
  generate_sprint_report 42 7 report_down_jira []
  = (VDict [("error", VStr "404 Not Found")],
     ([] ++ [CSprint 7]) ++ [CSprintReport 42 7]).
Proof.
  apply (report_fetch_fault_fails_report 42 7 report_down_jira [] sprint_7
           {| exn_str := "404 Not Found" |}); reflexivity.
Defined.

Lemma issue_details_from_two_fetches_witness :
  get_issue_details "PROJ-1" demo_jira []
    = (issue_details proj_1 (issue_changelog proj_1),
       ([] ++ [CIssue "PROJ-1" None]) ++ [CIssue "PROJ-1" (Some "changelog")]) /\
  dict_get "history" (as_dict (issue_details proj_1 (issue_changelog proj_1)))
    = Some (VList (map history_record (issue_changelog proj_1))) /\
  dict_get "comments" (as_dict (issue_details proj_1 (issue_changelog proj_1)))
    = Some (VList (map comment_record (f_comments (issue_fields proj_1)))) /\
  dict_get "key" (as_dict (issue_details proj_1 (issue_changelog proj_1)))
    = Some (VStr (issue_key proj_1)).
Proof.
  apply (issue_details_from_two_fetches "PROJ-1" demo_jira [] proj_1 proj_1);
    reflexivity.
Defined.

(** ** create_sprint: what is returned when the backend echoes nothing *)

Lemma append_grows (s t : string) : t <> "" -> s <> (s ++ t)%string.
Proof.
  intros Ht. induction s as [|c s IH]; simpl.
  - congruence.
  - intros E. injection E as E. now apply IH.
Qed.

(** When the sprint the backend returns has no state, dates or goal,
    [create_sprint] answers with the state ["future"], the caller's goal
    and the caller's dates as they were given, which are not the
    timestamps it sent to the backend. *)
Theorem create_sprint_falls_back_to_arguments (board_id : Z)
    (name start_date end_date goal : string) (j : Jira) (h : History)
    (new_sprint : Sprint) :
  jira_create_sprint j h name board_id
    (start_date ++ "T00:00:00.000Z")%string (end_date ++ "T23:59:59.000Z")%string
    goal = Ok new_sprint ->
  sprint_state new_sprint = None ->
  sprint_startDate new_sprint = None ->
  sprint_endDate new_sprint = None ->
  sprint_goal new_sprint = None ->
  fst (create_sprint board_id name start_date end_date goal j h)
  = VDict [("id", VInt (sprint_id new_sprint));
           ("name", VStr (sprint_name new_sprint));
           ("state", VStr "future");
           ("start_date", VStr start_date);
           ("end_date", VStr end_date);
           ("goal", VStr goal);
           ("message", VStr ("Successfully created sprint: " ++ name)%string)] /\
  start_date <> (start_date ++ "T00:00:00.000Z")%string /\
  end_date <> (end_date ++ "T23:59:59.000Z")%string.
Proof.
  intros Hcall Hstate Hstart Hend Hgoal.
  split; [|split; apply append_grows; discriminate].
  unfold create_sprint. open_handler.
  rewrite Hcall. simpl. now rewrite Hstate, Hstart, Hend, Hgoal.
Qed.

Lemma create_sprint_falls_back_to_arguments_witness :
  fst (create_sprint 42 "Sprint 8" "2024-01-15" "2024-01-28" "Ship it" terse_jira [])
  = VDict [("id", VInt 8);
           ("name", VStr "Sprint 8");
           ("state", VStr "future");
           ("start_date", VStr "2024-01-15");
           ("end_date", VStr "2024-01-28");
           ("goal", VStr "Ship it");
           ("message", VStr "Successfully created sprint: Sprint 8")] /\
  "2024-01-15" <> "2024-01-15T00:00:00.000Z" /\
  "2024-01-28" <> "2024-01-28T23:59:59.000Z".
Proof.
  apply (create_sprint_falls_back_to_arguments 42 "Sprint 8" "2024-01-15"
           "2024-01-28" "Ship it" terse_jira [] sprint_without_state);
    reflexivity.
Defined.

(** ** assign_issue and add_issue_to_sprint: one call each *)

(** [assign_issue] and [add_issue_to_sprint] make exactly one backend
    call, whatever it answers: the assignment of the given issue to the
    given user, or the addition of the one-element list holding the given
    issue to the given sprint.  The answer has [success: true] when that
    call returns, and is the error record of its exception otherwise. *)
Theorem single_call_commands (issue_key assignee : string) (sid : Z)
    (j : Jira) (h : History) :
  snd (assign_issue issue_key assignee j h)
    = h ++ [CAssignIssue issue_key assignee] /\
  snd (add_issue_to_sprint issue_key sid j h)
    = h ++ [CAddIssuesToSprint sid [issue_key]] /\
  match jira_assign_issue j h issue_key assignee with
  | Ok _ =>
      dict_get "success" (as_dict (fst (assign_issue issue_key assignee j h)))
      = Some (VBool true)
  | Raise e =>
      fst (assign_issue issue_key assignee j h) = error_record (exn_str e)
  end /\
  match jira_add_issues_to_sprint j h sid [issue_key] with
  | Ok _ =>
      dict_get "success" (as_dict (fst (add_issue_to_sprint issue_key sid j h)))
      = Some (VBool true)
  | Raise e =>
      fst (add_issue_to_sprint issue_key sid j h) = error_record (exn_str e)
  end.
Proof.
  unfold assign_issue, add_issue_to_sprint. open_handler.
  destruct (jira_assign_issue j h issue_key assignee);
    destruct (jira_add_issues_to_sprint j h sid [issue_key]);
    repeat split; reflexivity.
Qed.

(** ** Start-up *)

Lemma init_jira_without_credentials (getenv : string -> option string)
    (JIRA : string -> string * string -> Outcome Jira) :
  credential getenv "JIRA_URL" && credential getenv "JIRA_USERNAME"
    && credential getenv "JIRA_API_TOKEN" = false ->
  init_jira getenv JIRA
  = (inr (Exit 1),
     [Printed "Error initializing Jira client: Missing Jira credentials in environment variables";
      Traceback {| exn_str := "Missing Jira credentials in environment variables" |}]).
Proof.
  unfold init_jira, credential.
  destruct (getenv "JIRA_URL") as [u|]; [cbn [opt_str truthy]|intros; reflexivity].
  destruct (u =? "")%string; [intros; reflexivity|].
  destruct (getenv "JIRA_USERNAME") as [n|]; [cbn [opt_str truthy]|intros; reflexivity].
  destruct (n =? "")%string; [intros; reflexivity|].
  destruct (getenv "JIRA_API_TOKEN") as [k|]; [cbn [opt_str truthy]|intros; reflexivity].
  destruct (k =? "")%string; [intros; reflexivity|].
  simpl. discriminate.
Qed.


(** [_init_jira] exits with status 1 as soon as one of [JIRA_URL],
    [JIRA_USERNAME] and [JIRA_API_TOKEN] is unset or empty: it reports the
    missing credentials on [stderr] and the outcome does not depend on the
    client constructor, which is not reached. *)
Theorem missing_credentials_exit (getenv : string -> option string)
    (JIRA : string -> string * string -> Outcome Jira) :
  credential getenv "JIRA_URL" && credential getenv "JIRA_USERNAME"
    && credential getenv "JIRA_API_TOKEN" = false ->
  init_jira getenv JIRA
  = (inr (Exit 1),
     [Printed "Error initializing Jira client: Missing Jira credentials in environment variables";
      Traceback {| exn_str := "Missing Jira credentials in environment variables" |}]).
Proof. apply init_jira_without_credentials. Qed.

Lemma missing_credentials_exit_witness :
  init_jira env_without_token (fun _ _ => Returns demo_jira)
  = (inr (Exit 1),
     [Printed "Error initializing Jira client: Missing Jira credentials in environment variables";
      Traceback {| exn_str := "Missing Jira credentials in environment variables" |}]).
Proof.
  apply (missing_credentials_exit env_without_token (fun _ _ => Returns demo_jira)).
  reflexivity.
Defined.

